(** * Emergency-Response-Agent/app.py: the Flask integration layer

    A shallow embedding of [app.py].  The file is glue between Flask and four
    agent packages that live outside it, so the embedding has three layers:

    - Python values, exceptions and the builtins the handlers use
      ([dict.get], subscripting, [int], [float], truthiness, iteration);
    - a small monad for the effects of the file: the module's mutable state
      (the agent manager and the import globals), exceptions with
      [try/except Exception] and [try/finally], and the trace of what the
      code does to the outside (event loops, awaited agent methods, prints);
    - the functions of [app.py] themselves, written statement by statement.

    The agent packages, the model classes of [src.models.emergency_models]
    and Flask's [render_template] are not part of the file: they are
    parameters of the development.  Two things of the file have no
    counterpart here because nothing reads them: the module-level names
    [coordinator], [policy_checker], [citizen_assistant] and
    [document_agent] (lines 63-66), and the second [return] of
    [get_agent_manager], which is never reached. *)

From Stdlib Require Import String Ascii List ZArith Bool Arith Lia.
From Stdlib Require Import SpecFloat.
Import ListNotations.
Local Open Scope string_scope.
Local Open Scope list_scope.

Set Implicit Arguments.
Set Warnings "-register-all".

(* ================================================================== *)
(** ** Python values *)
(* ================================================================== *)

(** A Python [float] is an IEEE-754 double. *)
Definition float : Type := spec_float.

(** The values that travel through the handlers: what [request.get_json()]
    returns and what [jsonify] accepts. *)
Inductive pyval : Type :=
| VNone
| VBool (b : bool)
| VInt (z : Z)
| VFloat (f : float)
| VStr (s : string)
| VList (l : list pyval)
| VDict (d : list (string * pyval)).

(** [type(v).__name__] *)
Definition type_name (v : pyval) : string :=
  match v with
  | VNone => "NoneType"
  | VBool _ => "bool"
  | VInt _ => "int"
  | VFloat _ => "float"
  | VStr _ => "str"
  | VList _ => "list"
  | VDict _ => "dict"
  end.

Definition float_is_zero (f : float) : bool :=
  match f with S754_zero _ => true | _ => false end.

(** [bool(v)]: the truth value Python gives [v] in [if v], [not v] and
    [a and b]. *)
Definition truthy (v : pyval) : bool :=
  match v with
  | VNone => false
  | VBool b => b
  | VInt z => negb (Z.eqb z 0)
  | VFloat f => negb (float_is_zero f)
  | VStr s => negb (String.eqb s "")
  | VList l => match l with [] => false | _ => true end
  | VDict d => match d with [] => false | _ => true end
  end.

(** Lookup in a dict, first binding of the key. *)
Fixpoint assoc (k : string) (d : list (string * pyval)) : option pyval :=
  match d with
  | [] => None
  | (k', v) :: d' => if String.eqb k k' then Some v else assoc k d'
  end.

(* ================================================================== *)
(** ** Exceptions *)
(* ================================================================== *)

(** A raised exception.  The file observes two things of an exception: whether
    [except Exception] catches it ([isinstance(e, Exception)]; false for
    [KeyboardInterrupt], [SystemExit], [asyncio.CancelledError] and the other
    classes that derive from [BaseException] only), and [str(e)]. *)
Record exn : Type := mk_exn { is_Exception : bool; exn_str : string }.

Definition KeyError (key : string) : exn := mk_exn true ("'" ++ key ++ "'").
Definition AttributeError (msg : string) : exn := mk_exn true msg.
Definition TypeError (msg : string) : exn := mk_exn true msg.

Inductive result (A : Type) : Type :=
| Ok (a : A)
| Raise (e : exn).
Arguments Ok {A} a.
Arguments Raise {A} e.


(** Sequencing of expressions that can raise: the first exception wins. *)
Definition rbind {A B} (r : result A) (k : A -> result B) : result B :=
  match r with
  | Ok a => k a
  | Raise e => Raise e
  end.

Notation "'let?' x := r 'in' k" := (rbind r (fun x => k))
  (at level 10, x name, r at level 100, k at level 200).

(** [v.get(key, default)] *)
Definition py_get (v : pyval) (key : string) (default : pyval) : result pyval :=
  match v with
  | VDict d => Ok (match assoc key d with Some x => x | None => default end)
  | _ => Raise (AttributeError
                  ("'" ++ type_name v ++ "' object has no attribute 'get'"))
  end.

(** [v[key]] with a string key *)
Definition py_getitem (v : pyval) (key : string) : result pyval :=
  match v with
  | VDict d => match assoc key d with
               | Some x => Ok x
               | None => Raise (KeyError key)
               end
  | VList _ =>
      Raise (TypeError "list indices must be integers or slices, not str")
  | VStr _ => Raise (TypeError "string indices must be integers, not 'str'")
  | _ => Raise (TypeError
                  ("'" ++ type_name v ++ "' object is not subscriptable"))
  end.

Fixpoint chars (s : string) : list pyval :=
  match s with
  | EmptyString => []
  | String c s' => VStr (String c EmptyString) :: chars s'
  end.

(** The items [for x in v] goes through *)
Definition py_iter (v : pyval) : result (list pyval) :=
  match v with
  | VList l => Ok l
  | VStr s => Ok (chars s)
  | VDict d => Ok (map (fun kv => VStr (fst kv)) d)
  | _ => Raise (TypeError
                  ("'" ++ type_name v ++ "' object is not iterable"))
  end.

(* ================================================================== *)
(** ** What the file imports *)
(* ================================================================== *)

(** The classes of [src.models.emergency_models] and the conversions of the
    Python runtime that depend on text or on floating point.  [app.py] uses
    them and does not define them. *)
Class Models : Type := {
  (** the two enumerations: [E(v)] looks a member up by value and raises
      [ValueError] when there is none, [m.value], and [list(E)] *)
  EmergencyType : Type;
  EmergencyType_call : pyval -> result EmergencyType;
  EmergencyType_value : EmergencyType -> pyval;
  EmergencyType_members : list EmergencyType;
  SeverityLevel : Type;
  SeverityLevel_call : pyval -> result SeverityLevel;
  SeverityLevel_value : SeverityLevel -> pyval;
  SeverityLevel_members : list SeverityLevel;
  (** [datetime] and [timedelta] objects of a response plan, with
      [d.isoformat()] and [str(t)] *)
  datetime : Type;
  isoformat : datetime -> string;
  timedelta : Type;
  timedelta_str : timedelta -> string;
  (** [int(s)], [int(f)], [float(s)], [float(n)] *)
  int_of_str : string -> result Z;
  int_of_float : float -> result Z;
  float_of_str : string -> result float;
  float_of_int : Z -> result float;
  (** [str(v)], as an f-string formats [v] *)
  py_str : pyval -> string;
  (** [os.getenv(name)] *)
  getenv : string -> pyval
}.

(** Agent instances are Python objects: the file compares them with [None],
    tests their truth value and calls their methods.  An object is named by
    the address it was allocated at. *)
Definition obj : Type := nat.

(** [IntegratedAgentManager]: the attributes [__init__] sets *)
Module AgentManager.
Record t : Type := mk {
  coordinator : option obj;
  policy_checker : option obj;
  citizen_assistant : option obj;
  document_agent : option obj;
  initialized : bool
}.

(** [IntegratedAgentManager()] *)
Definition __init__ : t := mk None None None None false.

Definition set_coordinator (m : t) (o : obj) : t :=
  mk (Some o) (policy_checker m) (citizen_assistant m) (document_agent m)
     (initialized m).

Definition set_policy_checker (m : t) (o : obj) : t :=
  mk (coordinator m) (Some o) (citizen_assistant m) (document_agent m)
     (initialized m).

Definition set_citizen_assistant (m : t) (o : obj) : t :=
  mk (coordinator m) (policy_checker m) (Some o) (document_agent m)
     (initialized m).

Definition set_document_agent (m : t) (o : obj) : t :=
  mk (coordinator m) (policy_checker m) (citizen_assistant m) (Some o)
     (initialized m).

Definition set_initialized (m : t) (b : bool) : t :=
  mk (coordinator m) (policy_checker m) (citizen_assistant m)
     (document_agent m) b.
End AgentManager.

(** [x is not None] *)
Definition is_not_None {A} (x : option A) : bool :=
  match x with Some _ => true | None => false end.

(** Modelled from the spec: the agent classes ([EmergencyResponseCoordinator],
    [PolicyComplianceChecker], [VirtualCitizenAssistant],
    [DocumentEligibilityAgent]) are not in the file.  Their instances are
    ordinary objects (no [__bool__], no [__len__]), true wherever Python
    tests them: an attribute of the manager is false in [if x] and [not x]
    exactly when it is [None]. *)
Definition truthy_obj {A} (x : option A) : bool :=
  match x with Some _ => true | None => false end.

(** The class names the three guarded imports bind: the imported class, or
    [None] after a failed import; and the three availability flags. *)
Inductive pyclass : Type := Class (name : string).

Record Globals : Type := {
  PolicyComplianceChecker : option pyclass;
  policy_checker_available : bool;
  VirtualCitizenAssistant : option pyclass;
  citizen_assistant_available : bool;
  DocumentEligibilityAgent : option pyclass;
  document_agent_available : bool
}.

(* ================================================================== *)
(** ** The application *)
(* ================================================================== *)

Section App.

Context {Mo : Models}.

(** [int(v)] *)
Definition py_int (v : pyval) : result Z :=
  match v with
  | VInt z => Ok z
  | VBool b => Ok (if b then 1 else 0)%Z
  | VFloat f => int_of_float f
  | VStr s => int_of_str s
  | _ => Raise (TypeError
      ("int() argument must be a string, a bytes-like object or a real number, not '"
       ++ type_name v ++ "'"))
  end.

(** [float(v)] *)
Definition py_float (v : pyval) : result float :=
  match v with
  | VFloat f => Ok f
  | VInt z => float_of_int z
  | VBool b => float_of_int (if b then 1 else 0)%Z
  | VStr s => float_of_str s
  | _ => Raise (TypeError
      ("float() argument must be a string or a real number, not '"
       ++ type_name v ++ "'"))
  end.

(** *** Objects of [src.models.emergency_models] *)

(** Modelled from the spec: [EmergencyScenario] is not in the file.  It is
    the record of the nine keyword arguments [api_create_scenario] gives its
    constructor, which stores them as attributes of the same names. *)
Record EmergencyScenario : Type := {
  scenario_id : pyval;
  incident_type : EmergencyType;
  severity_level : SeverityLevel;
  location : pyval;
  affected_area_radius : float;
  estimated_population_affected : Z;
  duration_hours : Z;
  description : pyval;
  special_conditions : pyval
}.

(** Modelled from the spec: the response plan [coordinate_response] returns
    is not in the file.  It is the record of the attributes the handlers
    read from it; the two times are [datetime]s, the duration a
    [timedelta], the rest JSON values. *)
Record ResourceAllocation : Type := {
  personnel_deployment : pyval;
  equipment_requirements : pyval;
  facility_assignments : pyval
}.

Record TimelineMilestone : Type := {
  milestone_name : pyval;
  estimated_time : datetime;
  responsible_agency : pyval;
  milestone_description : pyval
}.

Record ResponsePlan : Type := {
  plan_id : pyval;
  plan_scenario_id : pyval;
  lead_agency : pyval;
  supporting_agencies : pyval;
  activation_time : datetime;
  estimated_duration : timedelta;
  immediate_actions : pyval;
  resource_allocation : ResourceAllocation;
  timeline_milestones : list TimelineMilestone;
  communication_plan : pyval
}.

(** Modelled from the spec: what [get_current_conditions] returns is not in
    the file.  It is the record of the seven attributes [api_get_weather]
    reads from it. *)
Record WeatherData : Type := {
  temperature : pyval;
  humidity : pyval;
  wind_speed : pyval;
  wind_direction : pyval;
  pressure : pyval;
  visibility : pyval;
  conditions : pyval
}.

(** *** Calls that leave the file

    The constructors and methods of the four agent classes and Flask's
    [render_template], indexed by the type of what they return.  The [async]
    methods are the ones the file awaits or hands to [run_until_complete]. *)
Inductive call : Type -> Type :=
| EmergencyResponseCoordinator__init (self : obj) : call unit
| coordinator_initialize (self : obj) : call unit
| coordinate_response (self : obj) (scenario : EmergencyScenario)
  : call ResponsePlan
| get_current_conditions (self : obj) (lat lon : float) : call WeatherData
| PolicyComplianceChecker__init (self : obj)
    (azure_openai_deployment azure_openai_endpoint azure_openai_api_key : pyval)
  : call unit
| policy_checker_initialize (self : obj) : call unit
| analyze_document (self : obj) (document_path : pyval) : call pyval
| analyze_policy_text (self : obj) (policy_text : pyval) : call pyval
| VirtualCitizenAssistant__init (self : obj) : call unit
| citizen_assistant_initialize (self : obj) : call unit
| chat (self : obj) (message : pyval) : call pyval
| DocumentEligibilityAgent__init (self : obj) (use_mock_services : bool)
  : call unit
| document_agent_initialize (self : obj) : call unit
| process_document (self : obj)
    (document_type document_content applicant_info : pyval) : call pyval
| render_template (template : string) (context : list (string * pyval))
  : call string.

(** The world outside the file: some state [W], how each call answers in it
    (a value or an exception, and the next state), whether a coordinator has
    its [weather_service] attribute, and what the four-argument
    [EmergencyScenario(...)] of [api_agents_collaborate] builds (the class
    defaults fill the other attributes, or the constructor raises). *)
Class World : Type := {
  W : Type;
  perform : forall T, call T -> W -> result T * W;
  weather_service : W -> obj -> result unit;
  EmergencyScenario_partial :
    EmergencyType -> SeverityLevel -> pyval -> pyval -> result EmergencyScenario
}.

Context {Wd : World}.

(** *** State and trace *)

Definition loop : Type := nat.

(** What the file does that is visible from outside, in order. *)
Inductive event : Type :=
| EvNewLoop (l : loop)                    (* asyncio.new_event_loop() *)
| EvSetLoop (l : loop)                    (* asyncio.set_event_loop(l) *)
| EvRun (l : loop)                        (* l.run_until_complete(...) *)
| EvClose (l : loop)                      (* l.close() *)
| EvCall (T : Type) (c : call T)          (* a call of the list above *)
| EvPrint (s : string).                   (* print(s) *)

(** The module's state: the global [agent_manager], the names bound by the
    guarded imports, the outside world, and the next fresh object and loop. *)
Record State : Type := {
  agent_manager : AgentManager.t;
  globals : Globals;
  world : W;
  next_obj : obj;
  next_loop : loop
}.

Definition with_manager (s : State) (m : AgentManager.t) : State :=
  {| agent_manager := m; globals := globals s; world := world s;
     next_obj := next_obj s; next_loop := next_loop s |}.

Definition with_world (s : State) (w : W) : State :=
  {| agent_manager := agent_manager s; globals := globals s; world := w;
     next_obj := next_obj s; next_loop := next_loop s |}.

Definition with_globals (s : State) (g : Globals) : State :=
  {| agent_manager := agent_manager s; globals := g; world := world s;
     next_obj := next_obj s; next_loop := next_loop s |}.

(** *** The monad of the file's code

    A computation takes the state and gives a value or a raised exception,
    the state it leaves (also when it raises) and the events it emitted. *)
Definition M (A : Type) : Type := State -> result A * State * list event.

Definition ret {A} (a : A) : M A := fun s => (Ok a, s, []).

Definition raise {A} (e : exn) : M A := fun s => (Raise e, s, []).

Definition bind {A B} (m : M A) (f : A -> M B) : M B :=
  fun s =>
    match m s with
    | (Ok a, s1, t1) => let '(r, s2, t2) := f a s1 in (r, s2, t1 ++ t2)
    | (Raise e, s1, t1) => (Raise e, s1, t1)
    end.

Notation "x <- m ;; k" := (bind m (fun x => k))
  (at level 100, m at next level, right associativity).
Notation "m ;; k" := (bind m (fun _ => k))
  (at level 100, right associativity).

(** An expression that can raise and touches nothing *)
Definition lift {A} (r : result A) : M A := fun s => (r, s, []).

(** [try: m  except Exception as e: h e] *)
Definition try_except {A} (m : M A) (h : exn -> M A) : M A :=
  fun s =>
    match m s with
    | (Ok a, s1, t1) => (Ok a, s1, t1)
    | (Raise e, s1, t1) =>
        if is_Exception e
        then let '(r, s2, t2) := h e s1 in (r, s2, t1 ++ t2)
        else (Raise e, s1, t1)
    end.

(** [try: m  finally: fin]: [fin] runs on every way out of [m]; what [m]
    returned or raised stands unless [fin] raises itself. *)
Definition try_finally {A} (m : M A) (fin : M unit) : M A :=
  fun s =>
    let '(r, s1, t1) := m s in
    match fin s1 with
    | (Ok _, s2, t2) => (r, s2, t1 ++ t2)
    | (Raise e, s2, t2) => (Raise e, s2, t1 ++ t2)
    end.

(** [for x in items: acc = body acc x], with the loop-carried value [acc] *)
Fixpoint for_in {A B} (items : list A) (acc : B) (body : B -> A -> M B)
  : M B :=
  match items with
  | [] => ret acc
  | x :: rest => acc' <- body acc x ;; for_in rest acc' body
  end.

Definition emit (e : event) : M unit := fun s => (Ok tt, s, [e]).

Definition print (msg : string) : M unit := emit (EvPrint msg).

(** A call that leaves the file: the world answers. *)
Definition invoke {T} (c : call T) : M T :=
  fun s =>
    let '(r, w) := perform c (world s) in (r, with_world s w, [EvCall c]).

(** [C(args)]: a fresh object, then [C.__init__(self, args)] *)
Definition construct (init : obj -> call unit) : M obj :=
  fun s =>
    let o := next_obj s in
    let s0 := {| agent_manager := agent_manager s; globals := globals s;
                 world := world s; next_obj := S o;
                 next_loop := next_loop s |} in
    (_ <- invoke (init o) ;; ret o) s0.

(** [x.method]: the object [x] holds, [AttributeError] when [x] is [None] *)
Definition method_of (x : option obj) (name : string) : M obj :=
  match x with
  | Some o => ret o
  | None => raise (AttributeError
                     ("'NoneType' object has no attribute '" ++ name ++ "'"))
  end.

(** *** asyncio *)

(** [asyncio.new_event_loop()] *)
Definition new_event_loop : M loop :=
  fun s =>
    let l := next_loop s in
    (Ok l,
     {| agent_manager := agent_manager s; globals := globals s;
        world := world s; next_obj := next_obj s; next_loop := S l |},
     [EvNewLoop l]).

(** [asyncio.set_event_loop(l)] *)
Definition set_event_loop (l : loop) : M unit := emit (EvSetLoop l).

(** [l.run_until_complete(coro)]: the coroutine [coro] runs on [l] until it
    returns or raises.  Calling an [async] method only builds the coroutine;
    its body runs here. *)
Definition run_until_complete {A} (l : loop) (coro : M A) : M A :=
  _ <- emit (EvRun l) ;; coro.

(** [l.close()] *)
Definition close (l : loop) : M unit := emit (EvClose l).

(** *** Flask *)

Inductive payload : Type :=
| Json (v : pyval)
| Html (page : string).

(** What a view function returns: a body and the HTTP status. *)
Record response : Type := { body : payload; status : Z }.

(** What the handlers read of the request's context: [request.get_json()]
    (the parsed body, or the exception Flask raises for it) and the clock,
    as [datetime.now().strftime('%Y%m%d_%H%M%S')]. *)
Record Request : Type := {
  get_json : result pyval;
  now_strftime : string
}.

(** [return jsonify(v)] *)
Definition jsonify (v : pyval) : M response :=
  ret {| body := Json v; status := 200 |}.

(** [return jsonify(v), code] *)
Definition jsonify_with (v : pyval) (code : Z) : M response :=
  ret {| body := Json v; status := code |}.

(** [return render_template(name, **context)] *)
Definition render (name : string) (context : list (string * pyval))
  : M response :=
  page <- invoke (render_template name context) ;;
  ret {| body := Html page; status := 200 |}.

(** The body of every [except Exception as e] of the API handlers *)
Definition error_body (e : exn) : pyval :=
  VDict [("success", VBool false); ("error", VStr (exn_str e))].

(* ------------------------------------------------------------------ *)
(** *** Module level: the guarded imports *)

(** What each [from main import C] does at load time: binds a class or
    raises. *)
Record Imports : Type := {
  import_PolicyComplianceChecker : result pyclass;
  import_VirtualCitizenAssistant : result pyclass;
  import_DocumentEligibilityAgent : result pyclass
}.

Definition modify_globals (f : Globals -> Globals) : M unit :=
  fun s => (Ok tt, with_globals s (f (globals s)), []).

Definition bind_policy_checker (c : option pyclass) (g : Globals) : Globals :=
  {| PolicyComplianceChecker := c;
     policy_checker_available := policy_checker_available g;
     VirtualCitizenAssistant := VirtualCitizenAssistant g;
     citizen_assistant_available := citizen_assistant_available g;
     DocumentEligibilityAgent := DocumentEligibilityAgent g;
     document_agent_available := document_agent_available g |}.

Definition flag_policy_checker (g : Globals) : Globals :=
  {| PolicyComplianceChecker := PolicyComplianceChecker g;
     policy_checker_available := true;
     VirtualCitizenAssistant := VirtualCitizenAssistant g;
     citizen_assistant_available := citizen_assistant_available g;
     DocumentEligibilityAgent := DocumentEligibilityAgent g;
     document_agent_available := document_agent_available g |}.

Definition bind_citizen_assistant (c : option pyclass) (g : Globals)
  : Globals :=
  {| PolicyComplianceChecker := PolicyComplianceChecker g;
     policy_checker_available := policy_checker_available g;
     VirtualCitizenAssistant := c;
     citizen_assistant_available := citizen_assistant_available g;
     DocumentEligibilityAgent := DocumentEligibilityAgent g;
     document_agent_available := document_agent_available g |}.

Definition flag_citizen_assistant (g : Globals) : Globals :=
  {| PolicyComplianceChecker := PolicyComplianceChecker g;
     policy_checker_available := policy_checker_available g;
     VirtualCitizenAssistant := VirtualCitizenAssistant g;
     citizen_assistant_available := true;
     DocumentEligibilityAgent := DocumentEligibilityAgent g;
     document_agent_available := document_agent_available g |}.

Definition bind_document_agent (c : option pyclass) (g : Globals) : Globals :=
  {| PolicyComplianceChecker := PolicyComplianceChecker g;
     policy_checker_available := policy_checker_available g;
     VirtualCitizenAssistant := VirtualCitizenAssistant g;
     citizen_assistant_available := citizen_assistant_available g;
     DocumentEligibilityAgent := c;
     document_agent_available := document_agent_available g |}.

Definition flag_document_agent (g : Globals) : Globals :=
  {| PolicyComplianceChecker := PolicyComplianceChecker g;
     policy_checker_available := policy_checker_available g;
     VirtualCitizenAssistant := VirtualCitizenAssistant g;
     citizen_assistant_available := citizen_assistant_available g;
     DocumentEligibilityAgent := DocumentEligibilityAgent g;
     document_agent_available := true |}.

(** Lines 28-30: the three flags start [False]; the class names are bound by
    the [try] blocks below. *)
Definition globals0 : Globals :=
  {| PolicyComplianceChecker := None; policy_checker_available := false;
     VirtualCitizenAssistant := None; citizen_assistant_available := false;
     DocumentEligibilityAgent := None; document_agent_available := false |}.

(** Lines 32-57 and 125: the three guarded imports, then
    [agent_manager = IntegratedAgentManager()]. *)
Definition load_module (imp : Imports) : M unit :=
  try_except
    (c <- lift (import_PolicyComplianceChecker imp) ;;
     modify_globals (bind_policy_checker (Some c)) ;;
     modify_globals flag_policy_checker ;;
     print "✓ Policy Compliance Checker imported successfully")
    (fun e =>
       print ("⚠ Policy Compliance Checker not available: " ++ exn_str e) ;;
       modify_globals (bind_policy_checker None)) ;;
  try_except
    (c <- lift (import_VirtualCitizenAssistant imp) ;;
     modify_globals (bind_citizen_assistant (Some c)) ;;
     modify_globals flag_citizen_assistant ;;
     print "✓ Virtual Citizen Assistant imported successfully")
    (fun e =>
       print ("⚠ Virtual Citizen Assistant not available: " ++ exn_str e) ;;
       modify_globals (bind_citizen_assistant None)) ;;
  try_except
    (c <- lift (import_DocumentEligibilityAgent imp) ;;
     modify_globals (bind_document_agent (Some c)) ;;
     modify_globals flag_document_agent ;;
     print "✓ Document Eligibility Agent imported successfully")
    (fun e =>
       print ("⚠ Document Eligibility Agent not available: " ++ exn_str e) ;;
       modify_globals (bind_document_agent None)) ;;
  fun s => (Ok tt, with_manager s AgentManager.__init__, []).

(** The state the interpreter starts the module in. *)
Definition boot (w : W) : State :=
  {| agent_manager := AgentManager.__init__; globals := globals0;
     world := w; next_obj := 0; next_loop := 0 |}.

(* ------------------------------------------------------------------ *)
(** *** [IntegratedAgentManager.initialize] *)

(** [self.attr = value], on the one instance, the global [agent_manager] *)
Definition setattr (set : AgentManager.t -> AgentManager.t) : M unit :=
  fun s => (Ok tt, with_manager s (set (agent_manager s)), []).

Definition read_globals : M Globals := fun s => (Ok (globals s), s, []).

(** The outer [try] block: every agent that was imported *)
Definition initialize_all : M bool :=
  (* Initialize Emergency Response Coordinator *)
  c <- construct EmergencyResponseCoordinator__init ;;
  setattr (fun m => AgentManager.set_coordinator m c) ;;
  invoke (coordinator_initialize c) ;;
  print "✓ Emergency Response Coordinator initialized" ;;
  g <- read_globals ;;
  (* Initialize Policy Compliance Checker *)
  (if truthy_obj (PolicyComplianceChecker g) && policy_checker_available g
   then
     p <- construct (fun self =>
            PolicyComplianceChecker__init self
              (getenv "AZURE_OPENAI_DEPLOYMENT_NAME")
              (getenv "AZURE_OPENAI_ENDPOINT")
              (getenv "AZURE_OPENAI_API_KEY")) ;;
     setattr (fun m => AgentManager.set_policy_checker m p) ;;
     invoke (policy_checker_initialize p) ;;
     print "✓ Policy Compliance Checker initialized"
   else ret tt) ;;
  (* Initialize Virtual Citizen Assistant *)
  (if truthy_obj (VirtualCitizenAssistant g) && citizen_assistant_available g
   then
     a <- construct VirtualCitizenAssistant__init ;;
     setattr (fun m => AgentManager.set_citizen_assistant m a) ;;
     invoke (citizen_assistant_initialize a) ;;
     print "✓ Virtual Citizen Assistant initialized"
   else ret tt) ;;
  (* Initialize Document Eligibility Agent *)
  (if truthy_obj (DocumentEligibilityAgent g) && document_agent_available g
   then
     d <- construct (fun self => DocumentEligibilityAgent__init self true) ;;
     setattr (fun m => AgentManager.set_document_agent m d) ;;
     invoke (document_agent_initialize d) ;;
     print "✓ Document Eligibility Agent initialized"
   else ret tt) ;;
  setattr (fun m => AgentManager.set_initialized m true) ;;
  ret true.

(** The inner [try] block: fallback to just the emergency coordinator *)
Definition initialize_fallback : M bool :=
  c <- construct EmergencyResponseCoordinator__init ;;
  setattr (fun m => AgentManager.set_coordinator m c) ;;
  invoke (coordinator_initialize c) ;;
  print "✓ Emergency Response Coordinator initialized (fallback mode)" ;;
  setattr (fun m => AgentManager.set_initialized m true) ;;
  ret true.

Definition initialize : M bool :=
  try_except initialize_all
    (fun e =>
       print ("Error initializing agents: " ++ exn_str e) ;;
       try_except initialize_fallback
         (fun fallback_error =>
            print ("Critical error: " ++ exn_str fallback_error) ;;
            ret false)).

(* ------------------------------------------------------------------ *)
(** *** The accessors *)

Definition get_coordinator : M obj :=
  fun s =>
    match AgentManager.coordinator (agent_manager s) with
    | None =>
        (c <- construct EmergencyResponseCoordinator__init ;;
         setattr (fun m => AgentManager.set_coordinator m c) ;;
         ret c) s
    | Some c => (Ok c, s, [])
    end.

(** [get_agent_manager()] returns the global; the handlers read its
    attributes through the returned reference.  Nothing a handler does
    between [get_agent_manager()] and those reads assigns an attribute of
    the manager, so the reads see the values of the moment of the call. *)
Definition get_agent_manager : M AgentManager.t :=
  fun s => (Ok (agent_manager s), s, []).

(* ------------------------------------------------------------------ *)
(** *** Page routes *)

Definition index : M response := render "index.html" [].

Definition dashboard : M response := render "dashboard.html" [].

Definition create_scenario : M response :=
  let emergency_types := map EmergencyType_value EmergencyType_members in
  let severity_levels := map SeverityLevel_value SeverityLevel_members in
  render "create_scenario.html"
    [("emergency_types", VList emergency_types);
     ("severity_levels", VList severity_levels)].

Definition scenarios : M response := render "scenarios.html" [].

Definition view_plan (plan_id : string) : M response :=
  render "plan_detail.html" [("plan_id", VStr plan_id)].

Definition map_view : M response := render "map.html" [].

Definition reports : M response := render "reports.html" [].

Definition agents_hub : M response :=
  manager <- get_agent_manager ;;
  let agent_status := VDict
    [("emergency_response",
      VBool (is_not_None (AgentManager.coordinator manager)));
     ("policy_compliance",
      VBool (is_not_None (AgentManager.policy_checker manager)));
     ("citizen_assistant",
      VBool (is_not_None (AgentManager.citizen_assistant manager)));
     ("document_eligibility",
      VBool (is_not_None (AgentManager.document_agent manager)))] in
  render "agents_hub.html" [("agent_status", agent_status)].

Definition policy_compliance : M response := render "policy_compliance.html" [].

Definition citizen_assistant : M response := render "citizen_assistant.html" [].

Definition document_eligibility : M response :=
  render "document_eligibility.html" [].

(* ------------------------------------------------------------------ *)
(** *** API routes *)

(** The dict built from a response plan for JSON serialization *)
Definition milestone_dict (m : TimelineMilestone) : pyval :=
  VDict [("milestone_name", milestone_name m);
         ("estimated_time", VStr (isoformat (estimated_time m)));
         ("responsible_agency", responsible_agency m);
         ("description", milestone_description m)].

Definition plan_dict (response_plan : ResponsePlan) : pyval :=
  VDict
    [("plan_id", plan_id response_plan);
     ("scenario_id", plan_scenario_id response_plan);
     ("lead_agency", lead_agency response_plan);
     ("supporting_agencies", supporting_agencies response_plan);
     ("activation_time", VStr (isoformat (activation_time response_plan)));
     ("estimated_duration",
      VStr (timedelta_str (estimated_duration response_plan)));
     ("immediate_actions", immediate_actions response_plan);
     ("resource_allocation",
      VDict
        [("personnel_deployment",
          personnel_deployment (resource_allocation response_plan));
         ("equipment_requirements",
          equipment_requirements (resource_allocation response_plan));
         ("facility_assignments",
          facility_assignments (resource_allocation response_plan))]);
     ("timeline_milestones",
      VList (map milestone_dict (timeline_milestones response_plan)));
     ("communication_plan", communication_plan response_plan)].

Definition scenario_dict (scenario : EmergencyScenario) : pyval :=
  VDict
    [("scenario_id", scenario_id scenario);
     ("incident_type", EmergencyType_value (incident_type scenario));
     ("severity_level", SeverityLevel_value (severity_level scenario));
     ("location", location scenario);
     ("affected_area_radius", VFloat (affected_area_radius scenario));
     ("estimated_population_affected",
      VInt (estimated_population_affected scenario));
     ("duration_hours", VInt (duration_hours scenario));
     ("description", description scenario)].

(** The keyword arguments of [EmergencyScenario(...)] in
    [api_create_scenario], evaluated in the order they are written. *)
Definition scenario_of_request (request : Request) (data : pyval)
  : result EmergencyScenario :=
  let? sid := py_get data "scenario_id"
                (VStr ("scenario_" ++ now_strftime request)) in
  let? ity_v := py_getitem data "incident_type" in
  let? ity := EmergencyType_call ity_v in
  let? sev_v := py_getitem data "severity_level" in
  let? sev_i := py_int sev_v in
  let? sev := SeverityLevel_call (VInt sev_i) in
  let? loc := py_getitem data "location" in
  let? rad_v := py_getitem data "affected_area_radius" in
  let? rad := py_float rad_v in
  let? pop_v := py_getitem data "estimated_population_affected" in
  let? pop := py_int pop_v in
  let? dur_v := py_get data "duration_hours" (VInt 24) in
  let? dur := py_int dur_v in
  let? desc := py_get data "description" (VStr "") in
  let? conds := py_get data "special_conditions" (VList []) in
  Ok {| scenario_id := sid; incident_type := ity; severity_level := sev;
        location := loc; affected_area_radius := rad;
        estimated_population_affected := pop; duration_hours := dur;
        description := desc; special_conditions := conds |}.

(** The [try] block of [api_create_scenario] *)
Definition api_create_scenario_try (request : Request) : M response :=
  data <- lift (get_json request) ;;
  (* Create emergency scenario *)
  scenario <- lift (scenario_of_request request data) ;;
  (* Process scenario with coordinator *)
  coord <- get_coordinator ;;
  (* Run async function in sync context *)
  loop <- new_event_loop ;;
  set_event_loop loop ;;
  response_plan <-
    try_finally
      (run_until_complete loop
         (invoke (coordinate_response coord scenario)))
      (close loop) ;;
  jsonify (VDict [("success", VBool true);
                  ("scenario", scenario_dict scenario);
                  ("response_plan", plan_dict response_plan)]).

Definition api_create_scenario (request : Request) : M response :=
  try_except (api_create_scenario_try request)
    (fun e => jsonify_with (error_body e) 400).

Definition weather_dict (weather_data : WeatherData) : pyval :=
  VDict [("temperature", temperature weather_data);
         ("humidity", humidity weather_data);
         ("wind_speed", wind_speed weather_data);
         ("wind_direction", wind_direction weather_data);
         ("pressure", pressure weather_data);
         ("visibility", visibility weather_data);
         ("conditions", conditions weather_data)].

(** The [try] block of [api_get_weather] *)
Definition api_get_weather_try (lat lon : string) : M response :=
  coord <- get_coordinator ;;
  (* Run async function in sync context *)
  loop <- new_event_loop ;;
  set_event_loop loop ;;
  weather_data <-
    try_finally
      ((* coord.weather_service.get_current_conditions, then its
          arguments, then the call *)
       (fun s => (weather_service (world s) coord, s, [])) ;;
       flat <- lift (py_float (VStr lat)) ;;
       flon <- lift (py_float (VStr lon)) ;;
       run_until_complete loop
         (invoke (get_current_conditions coord flat flon)))
      (close loop) ;;
  jsonify (VDict [("success", VBool true);
                  ("weather", weather_dict weather_data)]).

Definition api_get_weather (lat lon : string) : M response :=
  try_except (api_get_weather_try lat lon)
    (fun e => jsonify_with (error_body e) 400).

Definition unavailable (agent : string) : pyval :=
  VDict [("success", VBool false);
         ("error", VStr (agent ++ " not available"))].

Definition required (what : string) : pyval :=
  VDict [("success", VBool false); ("error", VStr what)].

(** The [try] block of [api_policy_analyze] *)
Definition api_policy_analyze_try (request : Request) : M response :=
  manager <- get_agent_manager ;;
  if negb (truthy_obj (AgentManager.policy_checker manager))
  then jsonify_with (unavailable "Policy Compliance Checker") 503
  else
    data <- lift (get_json request) ;;
    document_path <- lift (py_get data "document_path" VNone) ;;
    policy_text <- lift (py_get data "policy_text" VNone) ;;
    if negb (truthy document_path) && negb (truthy policy_text)
    then jsonify_with
           (required "Either document_path or policy_text required") 400
    else
      (* Run policy analysis *)
      loop <- new_event_loop ;;
      set_event_loop loop ;;
      result <-
        try_finally
          (if truthy document_path
           then
             checker <- method_of (AgentManager.policy_checker manager)
                          "analyze_document" ;;
             run_until_complete loop
               (invoke (analyze_document checker document_path))
           else
             checker <- method_of (AgentManager.policy_checker manager)
                          "analyze_policy_text" ;;
             run_until_complete loop
               (invoke (analyze_policy_text checker policy_text)))
          (close loop) ;;
      jsonify (VDict [("success", VBool true); ("analysis", result)]).

Definition api_policy_analyze (request : Request) : M response :=
  try_except (api_policy_analyze_try request)
    (fun e => jsonify_with (error_body e) 500).

(** The [try] block of [api_citizen_chat] *)
Definition api_citizen_chat_try (request : Request) : M response :=
  manager <- get_agent_manager ;;
  if negb (truthy_obj (AgentManager.citizen_assistant manager))
  then jsonify_with (unavailable "Virtual Citizen Assistant") 503
  else
    data <- lift (get_json request) ;;
    message <- lift (py_get data "message" VNone) ;;
    if negb (truthy message)
    then jsonify_with (required "Message required") 400
    else
      (* Run citizen assistant chat *)
      loop <- new_event_loop ;;
      set_event_loop loop ;;
      reply <-
        try_finally
          (assistant <- method_of (AgentManager.citizen_assistant manager)
                          "chat" ;;
           run_until_complete loop (invoke (chat assistant message)))
          (close loop) ;;
      jsonify (VDict [("success", VBool true); ("response", reply)]).

Definition api_citizen_chat (request : Request) : M response :=
  try_except (api_citizen_chat_try request)
    (fun e => jsonify_with (error_body e) 500).

(** The [try] block of [api_document_process] *)
Definition api_document_process_try (request : Request) : M response :=
  manager <- get_agent_manager ;;
  if negb (truthy_obj (AgentManager.document_agent manager))
  then jsonify_with (unavailable "Document Eligibility Agent") 503
  else
    data <- lift (get_json request) ;;
    document_type <- lift (py_get data "document_type" VNone) ;;
    document_content <- lift (py_get data "document_content" VNone) ;;
    applicant_info <- lift (py_get data "applicant_info" (VDict [])) ;;
    if negb (truthy document_type) || negb (truthy document_content)
    then jsonify_with (required "Document type and content required") 400
    else
      (* Run document processing *)
      loop <- new_event_loop ;;
      set_event_loop loop ;;
      result <-
        try_finally
          (agent <- method_of (AgentManager.document_agent manager)
                      "process_document" ;;
           run_until_complete loop
             (invoke (process_document agent document_type
                        document_content applicant_info)))
          (close loop) ;;
      jsonify (VDict [("success", VBool true); ("result", result)]).

Definition api_document_process (request : Request) : M response :=
  try_except (api_document_process_try request)
    (fun e => jsonify_with (error_body e) 500).

(** [v == s] for a string literal [s] *)
Definition eq_str (v : pyval) (s : string) : bool :=
  match v with
  | VStr s' => String.eqb s' s
  | _ => false
  end.

(** The four keyword arguments of [EmergencyScenario(...)] in
    [api_agents_collaborate], then the constructor. *)
Definition scenario_of_task (scenario_data : pyval)
  : result EmergencyScenario :=
  let? ity_v := py_getitem scenario_data "incident_type" in
  let? ity := EmergencyType_call ity_v in
  let? sev_v := py_getitem scenario_data "severity_level" in
  let? sev := SeverityLevel_call sev_v in
  let? loc := py_getitem scenario_data "location" in
  let? desc := py_getitem scenario_data "description" in
  EmergencyScenario_partial ity sev loc desc.

(** The [try] block of [api_agents_collaborate] *)
Definition api_agents_collaborate_try (request : Request) : M response :=
  manager <- get_agent_manager ;;
  data <- lift (get_json request) ;;
  task_type <- lift (py_get data "task_type" VNone) ;;
  task_data <- lift (py_get data "task_data" (VDict [])) ;;
  if eq_str task_type "emergency_policy_check"
  then
    (* Emergency scenario with policy compliance check *)
    scenario_data <- lift (py_get task_data "scenario" VNone) ;;
    policy_documents <- lift (py_get task_data "policies" (VList [])) ;;
    (* Create emergency scenario *)
    scenario_result <-
      (if truthy_obj (AgentManager.coordinator manager)
       then
         scenario <- lift (scenario_of_task scenario_data) ;;
         loop <- new_event_loop ;;
         set_event_loop loop ;;
         try_finally
           (coord <- method_of (AgentManager.coordinator manager)
                       "coordinate_response" ;;
            response_plan <-
              run_until_complete loop
                (invoke (coordinate_response coord scenario)) ;;
            ret (VDict
                   [("plan_id", plan_id response_plan);
                    ("lead_agency", lead_agency response_plan);
                    ("immediate_actions",
                     immediate_actions response_plan)]))
           (close loop)
       else ret VNone) ;;
    (* Check policies for compliance *)
    policy_results <-
      (if truthy_obj (AgentManager.policy_checker manager)
          && truthy policy_documents
       then
         loop <- new_event_loop ;;
         set_event_loop loop ;;
         try_finally
           (policies <- lift (py_iter policy_documents) ;;
            for_in policies []
              (fun policy_results policy =>
                 checker <- method_of
                              (AgentManager.policy_checker manager)
                              "analyze_policy_text" ;;
                 result <-
                   run_until_complete loop
                     (invoke (analyze_policy_text checker policy)) ;;
                 ret (policy_results ++ [result])))
           (close loop)
       else ret []) ;;
    jsonify
      (VDict
         [("success", VBool true);
          ("emergency_response", scenario_result);
          ("policy_compliance", VList policy_results);
          ("collaboration_summary",
           VStr "Emergency response plan generated with policy compliance validation")])
  else
    jsonify_with
      (VDict [("success", VBool false);
              ("error", VStr ("Unknown task type: " ++ py_str task_type))])
      400.

Definition api_agents_collaborate (request : Request) : M response :=
  try_except (api_agents_collaborate_try request)
    (fun e => jsonify_with (error_body e) 500).

(** One entry of the status report *)
Definition agent_entry (agent : option obj) : pyval :=
  VDict [("available", VBool (is_not_None agent));
         ("status",
          VStr (if truthy_obj agent then "active" else "unavailable"))].

Definition api_agents_status : M response :=
  manager <- get_agent_manager ;;
  jsonify
    (VDict
       [("emergency_response", agent_entry (AgentManager.coordinator manager));
        ("policy_compliance",
         agent_entry (AgentManager.policy_checker manager));
        ("citizen_assistant",
         agent_entry (AgentManager.citizen_assistant manager));
        ("document_eligibility",
         agent_entry (AgentManager.document_agent manager));
        ("system_status",
         VStr (if AgentManager.initialized manager
               then "operational" else "initializing"))]).

(* ------------------------------------------------------------------ *)
(** *** Start-up and dispatch *)

(** The [if __name__ == '__main__'] block before [app.run]. *)
Definition main : M unit :=
  print "🚀 Starting Integrated AI Agent System..." ;;
  loop <- new_event_loop ;;
  set_event_loop loop ;;
  try_finally
    (try_except
       (success <- run_until_complete loop initialize ;;
        if (success : bool)
        then
          print "✅ All available agents initialized successfully!" ;;
          print "🌐 Starting web application..."
        else
          print "⚠️  Some agents failed to initialize, running in limited mode")
       (fun e =>
          print ("❌ Critical error during initialization: " ++ exn_str e) ;;
          print "🔄 Starting with emergency response agent only..."))
    (close loop).

(** The page routes *)
Inductive page : Type :=
| Page_index
| Page_dashboard
| Page_create_scenario
| Page_scenarios
| Page_view_plan (plan_id : string)
| Page_map_view
| Page_reports
| Page_policy_compliance
| Page_citizen_assistant
| Page_document_eligibility
| Page_agents_hub.

Definition serve_page (p : page) : M response :=
  match p with
  | Page_index => index
  | Page_dashboard => dashboard
  | Page_create_scenario => create_scenario
  | Page_scenarios => scenarios
  | Page_view_plan plan_id => view_plan plan_id
  | Page_map_view => map_view
  | Page_reports => reports
  | Page_policy_compliance => policy_compliance
  | Page_citizen_assistant => citizen_assistant
  | Page_document_eligibility => document_eligibility
  | Page_agents_hub => agents_hub
  end.

(** The API routes that call an [async] agent method *)
Inductive api : Type :=
| Api_create_scenario (request : Request)
| Api_get_weather (lat lon : string)
| Api_policy_analyze (request : Request)
| Api_citizen_chat (request : Request)
| Api_document_process (request : Request)
| Api_agents_collaborate (request : Request).

Definition serve_api (a : api) : M response :=
  match a with
  | Api_create_scenario request => api_create_scenario request
  | Api_get_weather lat lon => api_get_weather lat lon
  | Api_policy_analyze request => api_policy_analyze request
  | Api_citizen_chat request => api_citizen_chat request
  | Api_document_process request => api_document_process request
  | Api_agents_collaborate request => api_agents_collaborate request
  end.

(** Every route of the application *)
Inductive route : Type :=
| Route_page (p : page)
| Route_api (a : api)
| Route_agents_status.

Definition serve (r : route) : M response :=
  match r with
  | Route_page p => serve_page p
  | Route_api a => serve_api a
  | Route_agents_status => api_agents_status
  end.

(* ================================================================== *)
(** ** Reading a run *)
(* ================================================================== *)

Definition result_of {A} (x : result A * State * list event) : result A :=
  fst (fst x).
Definition state_of {A} (x : result A * State * list event) : State :=
  snd (fst x).
Definition events_of {A} (x : result A * State * list event) : list event :=
  snd x.

(** Remove one occurrence of a loop from the open ones *)
Fixpoint remove_loop (l : loop) (open : list loop) : list loop :=
  match open with
  | [] => []
  | l' :: rest => if Nat.eqb l l' then rest else l' :: remove_loop l rest
  end.

(** The loops that are open after the events [t], given the ones open
    before: [new_event_loop] opens one, [close] closes it. *)
Fixpoint open_loops (open : list loop) (t : list event) : list loop :=
  match t with
  | [] => open
  | EvNewLoop l :: t' => open_loops (l :: open) t'
  | EvClose l :: t' => open_loops (remove_loop l open) t'
  | _ :: t' => open_loops open t'
  end.

(** The loops created in [t], in order *)
Fixpoint created (t : list event) : list loop :=
  match t with
  | [] => []
  | EvNewLoop l :: t' => l :: created t'
  | _ :: t' => created t'
  end.

(** The number of [run_until_complete] calls made on [l] in [t] *)
Fixpoint runs_on (l : loop) (t : list event) : nat :=
  match t with
  | [] => 0
  | EvRun l' :: t' => (if Nat.eqb l l' then 1 else 0) + runs_on l t'
  | _ :: t' => runs_on l t'
  end.

(** The loop discipline: a loop is created once, set and run only while it
    is open, and closed while it is open.  [Some open'] gives the loops open
    at the end; [None] reports a breach. *)
Fixpoint discipline (open : list loop) (t : list event)
  : option (list loop) :=
  match t with
  | [] => Some open
  | EvNewLoop l :: t' =>
      if existsb (Nat.eqb l) open then None else discipline (l :: open) t'
  | EvSetLoop l :: t' =>
      if existsb (Nat.eqb l) open then discipline open t' else None
  | EvRun l :: t' =>
      if existsb (Nat.eqb l) open then discipline open t' else None
  | EvClose l :: t' =>
      if existsb (Nat.eqb l) open
      then discipline (remove_loop l open) t' else None
  | _ :: t' => discipline open t'
  end.

(** The claim "one loop per request, one coroutine per loop", as a test of a
    trace. *)
Definition one_loop_one_coroutine (t : list event) : bool :=
  (length (created t) <=? 1)%nat
  && forallb (fun l => Nat.eqb (runs_on l t) 1) (created t).

(** An event that can happen while loop [l] is the open one *)
Definition inside (l : loop) (e : event) : Prop :=
  match e with
  | EvRun l' => l' = l
  | EvCall _ | EvPrint _ => True
  | _ => False
  end.

(** What the body of a session may do to the state: the manager, the
    globals and the counters stay; only the world moves. *)
Definition same_frame (s s' : State) : Prop :=
  agent_manager s' = agent_manager s /\ globals s' = globals s /\
  next_obj s' = next_obj s /\ next_loop s' = next_loop s.

(** The items the policy loop of [api_agents_collaborate] goes through *)
Definition policy_documents_of (request : Request) : list pyval :=
  match (let? data := get_json request in
         let? task_data := py_get data "task_data" (VDict []) in
         let? policy_documents := py_get task_data "policies" (VList []) in
         py_iter policy_documents) with
  | Ok policies => policies
  | Raise _ => []
  end.

(** How many coroutines each API handler runs on the loops it creates *)
Definition loop_use (a : api) (t : list event) : Prop :=
  match a with
  | Api_agents_collaborate request =>
      exists first second,
        created t = first ++ second /\
        length first <= 1 /\ length second <= 1 /\
        (forall l, In l first -> runs_on l t = 1) /\
        (forall l, In l second ->
                   runs_on l t <= length (policy_documents_of request))
  | Api_get_weather _ _ =>
      length (created t) <= 1 /\
      (forall l, In l (created t) -> runs_on l t <= 1)
  | _ =>
      length (created t) <= 1 /\
      (forall l, In l (created t) -> runs_on l t = 1)
  end.

(** The [try] block and the status of the [except] clause of each API
    handler *)
Definition api_try (a : api) : M response :=
  match a with
  | Api_create_scenario request => api_create_scenario_try request
  | Api_get_weather lat lon => api_get_weather_try lat lon
  | Api_policy_analyze request => api_policy_analyze_try request
  | Api_citizen_chat request => api_citizen_chat_try request
  | Api_document_process request => api_document_process_try request
  | Api_agents_collaborate request => api_agents_collaborate_try request
  end.

Definition except_status (a : api) : Z :=
  match a with
  | Api_create_scenario _ | Api_get_weather _ _ => 400
  | _ => 500
  end.

(** The states the application goes through: the module is loaded, the
    start-up block may run, and requests are served one after the other. *)
Inductive reachable (imp : Imports) : State -> Prop :=
| reach_load w s t :
    load_module imp (boot w) = (Ok tt, s, t) -> reachable imp s
| reach_main s r s' t :
    reachable imp s -> main s = (r, s', t) -> reachable imp s'
| reach_serve s rt r s' t :
    reachable imp s -> serve rt s = (r, s', t) -> reachable imp s'.

(** What a request may change: the coordinator (created on demand), the
    world and the counters; not the globals or the other attributes. *)
Definition serve_frame (s s' : State) : Prop :=
  globals s' = globals s /\
  AgentManager.policy_checker (agent_manager s')
  = AgentManager.policy_checker (agent_manager s) /\
  AgentManager.citizen_assistant (agent_manager s')
  = AgentManager.citizen_assistant (agent_manager s) /\
  AgentManager.document_agent (agent_manager s')
  = AgentManager.document_agent (agent_manager s) /\
  AgentManager.initialized (agent_manager s')
  = AgentManager.initialized (agent_manager s).



(** One entry of the status report, as the status endpoint is described *)
Definition status_entry (agent : option obj) : pyval :=
  match agent with
  | Some _ => VDict [("available", VBool true); ("status", VStr "active")]
  | None => VDict [("available", VBool false);
                   ("status", VStr "unavailable")]
  end.

(** A call of the coordinator's constructor or of its [initialize] *)
Definition coordinator_only (e : event) : Prop :=
  match e with
  | EvCall (EmergencyResponseCoordinator__init _) => True
  | EvCall (coordinator_initialize _) => True
  | EvCall _ => False
  | _ => True
  end.

(* ------------------------------------------------------------------ *)
(** *** Reading responses and events *)

(** The ['success'] and ['error'] fields of a JSON response *)
Definition success_of (resp : response) : option pyval :=
  match body resp with
  | Json (VDict d) => assoc "success" d
  | _ => None
  end.

Definition error_of (resp : response) : option pyval :=
  match body resp with
  | Json (VDict d) => assoc "error" d
  | _ => None
  end.

(** A field of a JSON response *)
Definition field_of (key : string) (resp : response) : option pyval :=
  match body resp with
  | Json (VDict d) => assoc key d
  | _ => None
  end.

(** The statuses each API handler can answer with *)
Definition statuses (a : api) : list Z :=
  match a with
  | Api_create_scenario _ | Api_get_weather _ _ => [200; 400]%Z
  | Api_agents_collaborate _ => [200; 400; 500]%Z
  | _ => [200; 400; 500; 503]%Z
  end.

(** The events of start-up: the [initialize] methods, the constructors of
    the three optional agents, and prints. *)
Definition startup_event (e : event) : Prop :=
  match e with
  | EvCall (coordinator_initialize _) => True
  | EvCall (PolicyComplianceChecker__init _ _ _ _) => True
  | EvCall (policy_checker_initialize _) => True
  | EvCall (VirtualCitizenAssistant__init _) => True
  | EvCall (citizen_assistant_initialize _) => True
  | EvCall (DocumentEligibilityAgent__init _ _) => True
  | EvCall (document_agent_initialize _) => True
  | EvPrint _ => True
  | _ => False
  end.

(** A call of a constructor *)
Definition constructor_event (e : event) : Prop :=
  match e with
  | EvCall (EmergencyResponseCoordinator__init _) => True
  | EvCall (PolicyComplianceChecker__init _ _ _ _) => True
  | EvCall (VirtualCitizenAssistant__init _) => True
  | EvCall (DocumentEligibilityAgent__init _ _) => True
  | _ => False
  end.

(** The two routes that call [get_coordinator] *)
Definition calls_get_coordinator (rt : route) : bool :=
  match rt with
  | Route_api (Api_create_scenario _) => true
  | Route_api (Api_get_weather _ _) => true
  | _ => false
  end.

(** [result] is what [analyze_policy_text] of the checker [pc] answered for
    [policy] *)
Definition analysed (pc : obj) (policy result : pyval) : Prop :=
  exists w w', perform (analyze_policy_text pc policy) w = (Ok result, w').

(** The template and context each page route renders *)
Definition page_template (p : page) (m : AgentManager.t)
  : string * list (string * pyval) :=
  match p with
  | Page_index => ("index.html", [])
  | Page_dashboard => ("dashboard.html", [])
  | Page_create_scenario =>
      ("create_scenario.html",
       [("emergency_types",
         VList (map EmergencyType_value EmergencyType_members));
        ("severity_levels",
         VList (map SeverityLevel_value SeverityLevel_members))])
  | Page_scenarios => ("scenarios.html", [])
  | Page_view_plan plan_id => ("plan_detail.html", [("plan_id", VStr plan_id)])
  | Page_map_view => ("map.html", [])
  | Page_reports => ("reports.html", [])
  | Page_policy_compliance => ("policy_compliance.html", [])
  | Page_citizen_assistant => ("citizen_assistant.html", [])
  | Page_document_eligibility => ("document_eligibility.html", [])
  | Page_agents_hub =>
      ("agents_hub.html",
       [("agent_status",
         VDict
           [("emergency_response",
             VBool (is_not_None (AgentManager.coordinator m)));
            ("policy_compliance",
             VBool (is_not_None (AgentManager.policy_checker m)));
            ("citizen_assistant",
             VBool (is_not_None (AgentManager.citizen_assistant m)));
            ("document_eligibility",
             VBool (is_not_None (AgentManager.document_agent m)))])])
  end.

(** [d.get(key, default)] on a dict *)
Definition dict_get (d : list (string * pyval)) (key : string)
    (default : pyval) : pyval :=
  match assoc key d with
  | Some x => x
  | None => default
  end.


(** Requests served one after the other: the state they leave and all
    their events, whatever each one answered *)
Fixpoint serve_all (rts : list route) (s : State) : State * list event :=
  match rts with
  | [] => (s, [])
  | rt :: rest =>
      let '(_, s1, t1) := serve rt s in
      let '(s2, t2) := serve_all rest s1 in
      (s2, t1 ++ t2)
  end.

(** The coordinator [c] is on the manager and its [initialize()] was awaited
    in [t] and returned. *)
Definition coordinator_ready (s : State) (t : list event) : Prop :=
  exists c w w',
    AgentManager.coordinator (agent_manager s) = Some c /\
    In (EvCall (coordinator_initialize c)) t /\
    perform (coordinator_initialize c) w = (Ok tt, w').

(** A manager that says it is initialized holds a coordinator. *)
Definition operational (s : State) : Prop :=
  AgentManager.initialized (agent_manager s) = true ->
  AgentManager.coordinator (agent_manager s) <> None.

(** *** Loop sessions *)

(** A coroutine handed to [run_until_complete]: the call it awaits *)
Inductive coroutine : Type :=
| Coroutine (T : Type) (c : call T).

(** Where a handler is in its use of event loops: no loop open; a loop
    created and not yet set; a loop open, with the coroutines run on it so
    far; a [run_until_complete] on it under way. *)
Inductive phase : Type :=
| Idle
| Created (l : loop)
| Ready (l : loop) (cs : list coroutine)
| Running (l : loop) (cs : list coroutine).

(** The constructors: the calls of the list that are no method of an agent *)
Definition is_constructor {T} (c : call T) : bool :=
  match c with
  | EmergencyResponseCoordinator__init _ => true
  | PolicyComplianceChecker__init _ _ _ _ => true
  | VirtualCitizenAssistant__init _ => true
  | DocumentEligibilityAgent__init _ _ => true
  | _ => false
  end.

(** Reads a trace as a sequence of sessions "create a loop, set it, run
    coroutines on it one after the other, close it", and gives each session's
    loop and coroutines.  [None] reports anything else: a loop created while
    another is open, an operation on a loop that is not the open one, a
    [run_until_complete] that runs no call or more than one, a call or a
    print on an open loop outside [run_until_complete], a method of an agent
    called while no loop is open, a loop left open.  Constructors and prints
    while no loop is open are passed over. *)
Fixpoint sessions_from (ph : phase) (done : list (loop * list coroutine))
    (t : list event) : option (list (loop * list coroutine)) :=
  match t with
  | [] => match ph with Idle => Some done | _ => None end
  | e :: t' =>
      match ph, e with
      | Idle, EvNewLoop l => sessions_from (Created l) done t'
      | Idle, EvCall c =>
          if is_constructor c then sessions_from Idle done t' else None
      | Idle, EvPrint _ => sessions_from Idle done t'
      | Created l, EvSetLoop l' =>
          if Nat.eqb l l' then sessions_from (Ready l []) done t' else None
      | Ready l cs, EvRun l' =>
          if Nat.eqb l l' then sessions_from (Running l cs) done t' else None
      | Running l cs, EvCall c =>
          sessions_from (Ready l (cs ++ [Coroutine c])) done t'
      | Ready l cs, EvClose l' =>
          if Nat.eqb l l'
          then sessions_from Idle (done ++ [(l, cs)]) t' else None
      | _, _ => None
      end
  end.

Definition sessions (t : list event) : option (list (loop * list coroutine)) :=
  sessions_from Idle [] t.

(** The handler answered 200. *)
Definition answers_200 (r : result response) : Prop :=
  exists resp, r = Ok resp /\ status resp = 200%Z.

(** The coroutines of the policy loop of [api_agents_collaborate] *)
Definition policy_coroutines (pc : obj) (documents : list pyval)
  : list coroutine :=
  map (fun policy => Coroutine (analyze_policy_text pc policy)) documents.

(** The events of the policy loop for the documents it gets to *)
Definition policy_runs (l : loop) (pc : obj) (documents : list pyval)
  : list event :=
  flat_map (fun policy => [EvRun l; EvCall (analyze_policy_text pc policy)])
    documents.

(** [documents] are the policy documents [all] up to and including the first
    whose analysis raises, or all of them. *)
Definition analysed_until_raise (pc : obj) (documents all : list pyval)
  : Prop :=
  documents = all \/
  exists before policy after e w w',
    all = before ++ policy :: after /\
    documents = before ++ [policy] /\
    perform (analyze_policy_text pc policy) w = (Raise e, w').

(** The sessions of each API handler: which coroutines it runs on which
    loop, for a request served from the state [s] with the result [r]. *)
Definition session_use (a : api) (s : State) (r : result response)
    (ss : list (loop * list coroutine)) : Prop :=
  match a with
  | Api_create_scenario request =>
      (ss = [] \/
       exists coord scenario,
         ss = [(next_loop s, [Coroutine (coordinate_response coord scenario)])])
      /\ (answers_200 r -> ss <> [])
  | Api_get_weather lat lon =>
      (ss = [] \/ ss = [(next_loop s, [])] \/
       exists coord flat flon,
         py_float (VStr lat) = Ok flat /\ py_float (VStr lon) = Ok flon /\
         ss = [(next_loop s,
                [Coroutine (get_current_conditions coord flat flon)])])
      /\ (answers_200 r -> ss <> [] /\ ss <> [(next_loop s, [])])
  | Api_policy_analyze request =>
      (ss = [] \/
       exists pc v,
         AgentManager.policy_checker (agent_manager s) = Some pc /\
         (ss = [(next_loop s, [Coroutine (analyze_document pc v)])] \/
          ss = [(next_loop s, [Coroutine (analyze_policy_text pc v)])]))
      /\ (answers_200 r -> ss <> [])
  | Api_citizen_chat request =>
      (ss = [] \/
       exists assistant message,
         AgentManager.citizen_assistant (agent_manager s) = Some assistant /\
         ss = [(next_loop s, [Coroutine (chat assistant message)])])
      /\ (answers_200 r -> ss <> [])
  | Api_document_process request =>
      (ss = [] \/
       exists agent document_type document_content applicant_info,
         AgentManager.document_agent (agent_manager s) = Some agent /\
         ss = [(next_loop s,
                [Coroutine (process_document agent document_type
                              document_content applicant_info)])])
      /\ (answers_200 r -> ss <> [])
  | Api_agents_collaborate request =>
      exists first second,
        ss = first ++ second /\
        (first = [] \/
         exists coord scenario,
           AgentManager.coordinator (agent_manager s) = Some coord /\
           first = [(next_loop s,
                     [Coroutine (coordinate_response coord scenario)])]) /\
        (second = [] \/
         exists l pc documents,
           AgentManager.policy_checker (agent_manager s) = Some pc /\
           second = [(l, policy_coroutines pc documents)] /\
           analysed_until_raise pc documents (policy_documents_of request)) /\
        (answers_200 r ->
         (AgentManager.coordinator (agent_manager s) <> None ->
          first <> []) /\
         (forall pc,
             AgentManager.policy_checker (agent_manager s) = Some pc ->
             concat (map snd second)
             = policy_coroutines pc (policy_documents_of request)))
  end.

End App.

Notation "x <- m ;; k" := (bind m (fun x => k))
  (at level 100, m at next level, right associativity).
Notation "m ;; k" := (bind m (fun _ => k))
  (at level 100, right associativity).

(* ================================================================== *)
(** ** A concrete world

    One instance of the parameters, to run the handlers on: the models are
    small, and the world answers every call from a script, one entry per
    call ([None]: the call returns; [Some e]: it raises [e]). *)
(* ================================================================== *)

Module Demo.

Definition ValueError (msg : string) : exn := mk_exn true msg.

Definition digit (c : ascii) : option Z :=
  let n := Z.of_nat (nat_of_ascii c) in
  if ((48 <=? n) && (n <=? 57))%Z then Some (n - 48)%Z else None.

Fixpoint decimal (s : string) (acc : Z) : option Z :=
  match s with
  | EmptyString => Some acc
  | String c s' =>
      match digit c with
      | Some d => decimal s' (10 * acc + d)%Z
      | None => None
      end
  end.

(** Plain runs of digits are the numerals this instance reads. *)
Definition parse_int (s : string) : result Z :=
  match s with
  | EmptyString => Raise (ValueError "invalid literal for int() with base 10: ''")
  | _ => match decimal s 0 with
         | Some z => Ok z
         | None => Raise (ValueError
                     ("invalid literal for int() with base 10: '" ++ s ++ "'"))
         end
  end.

Definition double (z : Z) : float := binary_normalize 53 1024 z 0 false.

Definition parse_float (s : string) : result float :=
  match parse_int s with
  | Ok z => Ok (double z)
  | Raise _ => Raise (ValueError
                 ("could not convert string to float: '" ++ s ++ "'"))
  end.

Definition trunc (f : float) : result Z :=
  match f with
  | S754_zero _ => Ok 0%Z
  | S754_finite sg m e =>
      let z := if (0 <=? e)%Z then (Z.pos m * 2 ^ e)%Z
               else (Z.pos m / 2 ^ (- e))%Z in
      Ok (if sg then (- z)%Z else z)
  | S754_infinity _ =>
      Raise (mk_exn true "cannot convert float infinity to integer")
  | S754_nan => Raise (ValueError "cannot convert float NaN to integer")
  end.

#[local] Instance models : Models := {|
  EmergencyType := string;
  EmergencyType_call v :=
    match v with
    | VStr "fire" => Ok "fire"
    | VStr "flood" => Ok "flood"
    | _ => Raise (ValueError "not a valid EmergencyType")
    end;
  EmergencyType_value m := VStr m;
  EmergencyType_members := ["fire"; "flood"];
  SeverityLevel := Z;
  SeverityLevel_call v :=
    match v with
    | VInt z => if ((1 <=? z) && (z <=? 5))%Z then Ok z
                else Raise (ValueError "not a valid SeverityLevel")
    | _ => Raise (ValueError "not a valid SeverityLevel")
    end;
  SeverityLevel_value m := VInt m;
  SeverityLevel_members := [1; 2; 3; 4; 5]%Z;
  datetime := string;
  isoformat d := d;
  timedelta := string;
  timedelta_str t := t;
  int_of_str := parse_int;
  int_of_float := trunc;
  float_of_str := parse_float;
  float_of_int z := Ok (double z);
  py_str v := match v with VStr s => s | _ => type_name v end;
  getenv _ := VNone
|}.

Definition plan : ResponsePlan :=
  {| plan_id := VStr "plan-1";
     plan_scenario_id := VStr "scenario-1";
     lead_agency := VStr "Fire Department";
     supporting_agencies := VList [VStr "Police"];
     activation_time := "2025-01-01T00:00:00";
     estimated_duration := "1 day, 0:00:00";
     immediate_actions := VList [VStr "Evacuate"];
     resource_allocation :=
       {| personnel_deployment := VDict [];
          equipment_requirements := VDict [];
          facility_assignments := VDict [] |};
     timeline_milestones :=
       [{| milestone_name := VStr "Containment";
           estimated_time := "2025-01-01T06:00:00";
           responsible_agency := VStr "Fire Department";
           milestone_description := VStr "Fire contained" |}];
     communication_plan := VDict [] |}.

Definition weather : WeatherData :=
  {| temperature := VInt 20; humidity := VInt 50; wind_speed := VInt 10;
     wind_direction := VStr "N"; pressure := VInt 1013;
     visibility := VInt 10; conditions := VStr "Clear" |}.

(** What a call returns when it returns *)
Definition answer {T} (c : call T) : T :=
  match c in call T return T with
  | EmergencyResponseCoordinator__init _ => tt
  | coordinator_initialize _ => tt
  | coordinate_response _ _ => plan
  | get_current_conditions _ _ _ => weather
  | PolicyComplianceChecker__init _ _ _ _ => tt
  | policy_checker_initialize _ => tt
  | analyze_document _ _ => VStr "compliant"
  | analyze_policy_text _ _ => VStr "compliant"
  | VirtualCitizenAssistant__init _ => tt
  | citizen_assistant_initialize _ => tt
  | chat _ _ => VStr "hello"
  | DocumentEligibilityAgent__init _ _ => tt
  | document_agent_initialize _ => tt
  | process_document _ _ _ _ => VStr "eligible"
  | render_template name _ => name
  end.

Definition script : Type := list (option exn).

Definition answer_from {T} (c : call T) (w : script) : result T * script :=
  match w with
  | [] => (Ok (answer c), [])
  | None :: w' => (Ok (answer c), w')
  | Some e :: w' => (Raise e, w')
  end.

#[local] Instance scripted : World := {|
  W := script;
  perform := @answer_from;
  weather_service _ _ := Ok tt;
  EmergencyScenario_partial ity sev loc desc :=
    Ok {| scenario_id := VStr "scenario-1"; incident_type := ity;
          severity_level := sev; location := loc;
          affected_area_radius := double 1;
          estimated_population_affected := 0; duration_hours := 24;
          description := desc; special_conditions := VList [] |}
|}.

(** A state with the given manager and script *)
Definition state (m : AgentManager.t) (w : script) : State :=
  {| agent_manager := m; globals := globals0; world := w;
     next_obj := 10; next_loop := 0 |}.

Definition post (v : pyval) : Request :=
  {| get_json := Ok v; now_strftime := "20250101_120000" |}.

Definition boom : exn := mk_exn true "boom".

(** A manager with a coordinator and a policy checker *)
Definition both_agents : AgentManager.t :=
  AgentManager.mk (Some 1) (Some 2) None None true.

(** A collaboration task with two policy documents *)
Definition collaborate_request : pyval :=
  VDict
    [("task_type", VStr "emergency_policy_check");
     ("task_data",
      VDict
        [("scenario",
          VDict [("incident_type", VStr "fire");
                 ("severity_level", VInt 3);
                 ("location", VStr "Downtown");
                 ("description", VStr "Warehouse fire")]);
         ("policies", VList [VStr "policy A"; VStr "policy B"])])].

(** A scenario request that leaves the optional fields out *)
Definition scenario_request : pyval :=
  VDict [("incident_type", VStr "fire");
         ("severity_level", VInt 3);
         ("location", VStr "Downtown");
         ("affected_area_radius", VInt 2);
         ("estimated_population_affected", VInt 1000)].

(** Every guarded import fails. *)
Definition ImportError (name : string) : exn :=
  mk_exn true ("cannot import name '" ++ name ++ "' from 'main'").

Definition no_imports : Imports :=
  {| import_PolicyComplianceChecker :=
       Raise (ImportError "PolicyComplianceChecker");
     import_VirtualCitizenAssistant :=
       Raise (ImportError "VirtualCitizenAssistant");
     import_DocumentEligibilityAgent :=
       Raise (ImportError "DocumentEligibilityAgent") |}.

(** The state after the module is loaded with these imports, and what
    loading printed *)
Definition no_script : script := [].

Definition loaded : State :=
  state_of (load_module (Wd := scripted) no_imports (boot no_script)).

Definition load_events : list event :=
  events_of (load_module (Wd := scripted) no_imports (boot no_script)).

(** The run of [api_create_scenario] on that request, with no agent yet *)
Definition scenario_run : result response * State * list event :=
  api_create_scenario (Wd := scripted) (post scenario_request)
    (state AgentManager.__init__ []).

Definition response_of (r : result response) : response :=
  match r with
  | Ok resp => resp
  | Raise _ => {| body := Html ""; status := 0 |}
  end.

(** The status [api_get_weather] answers a latitude that is no number with *)
Definition status_of_weather_abc : Z :=
  match result_of
          (api_get_weather (Wd := scripted) "abc" "12"
             (state AgentManager.__init__ [])) with
  | Ok resp => status resp
  | Raise _ => 0
  end.

(** A manager with every agent *)
Definition all_agents : AgentManager.t :=
  AgentManager.mk (Some 1) (Some 2) (Some 3) (Some 4) true.

(** The globals after three successful imports, and the state the module
    then starts in *)
Definition imported : Globals :=
  {| PolicyComplianceChecker := Some (Class "PolicyComplianceChecker");
     policy_checker_available := true;
     VirtualCitizenAssistant := Some (Class "VirtualCitizenAssistant");
     citizen_assistant_available := true;
     DocumentEligibilityAgent := Some (Class "DocumentEligibilityAgent");
     document_agent_available := true |}.

Definition started (w : script) : State :=
  {| agent_manager := AgentManager.__init__; globals := imported;
     world := w; next_obj := 10; next_loop := 0 |}.

(** A policy request with a document and a text, a chat message, a
    document to process *)
Definition policy_fields : list (string * pyval) :=
  [("document_path", VStr "policy.pdf"); ("policy_text", VStr "No parking")].

Definition chat_fields : list (string * pyval) := [("message", VStr "hi")].

Definition other_task : list (string * pyval) :=
  [("task_type", VStr "translate")].

Definition policy_task : list (string * pyval) :=
  [("task_type", VStr "emergency_policy_check")].

(** The collaboration run of two policies, and three requests in a row *)
Definition collaborate_run : result response * State * list event :=
  api_agents_collaborate (Wd := scripted) (post collaborate_request)
    (state both_agents []).

Definition three_requests : list route :=
  [Route_api (Api_get_weather "40" "12");
   Route_api (Api_create_scenario (post scenario_request));
   Route_agents_status].

(** Start-up in which [policy_checker.initialize()] raises *)
Definition policy_fails : State :=
  started [None; None; None; Some boom].

Definition full_start : result bool * State * list event :=
  initialize_all (Wd := scripted) (started []).

(** Start-up in which [coordinator.initialize()] raises once, and the state
    the start-up block leaves after the module was loaded *)
Definition retried : result bool * State * list event :=
  initialize (Wd := scripted)
    (state AgentManager.__init__ [None; Some boom]).

Definition running : State := state_of (main (Wd := scripted) loaded).

(** [asyncio.CancelledError], what an awaited coroutine that is cancelled
    raises: it derives from [BaseException] only, so [except Exception] lets
    it through. *)
Definition CancelledError : exn := mk_exn false "".

End Demo.

(* ================================================================== *)
(** ** Properties *)
(* ================================================================== *)

Section Properties.

Context {Mo : Models} {Wd : World}.

Arguments py_get : simpl never.
Arguments py_getitem : simpl never.
Arguments py_iter : simpl never.
Arguments py_float : simpl never.
Arguments py_int : simpl never.
Arguments truthy : simpl never.
Arguments eq_str : simpl never.
Arguments scenario_of_request : simpl never.
Arguments scenario_of_task : simpl never.
Arguments String.append : simpl never.
Arguments Nat.eqb : simpl never.

(** *** Running a handler symbolically

    Every fallible step either raises, which ends the path in the handler's
    [except] clause, or goes on: [exec] follows each path to its end. *)

Ltac no_inner_match X :=
  lazymatch X with
  | context [match _ with _ => _ end] => fail
  | _ => idtac
  end.

Lemma eqb_succ_l (n : nat) : Nat.eqb (S n) n = false.
Proof. apply Nat.eqb_neq. lia. Qed.

Lemma eqb_succ_r (n : nat) : Nat.eqb n (S n) = false.
Proof. apply Nat.eqb_neq. lia. Qed.

Ltac exec_step :=
  first
    [ rewrite Nat.eqb_refl
    | rewrite eqb_succ_l
    | rewrite eqb_succ_r
    | match goal with
      | |- context [match ?X with _ => _ end] =>
          no_inner_match X; destruct X eqn:?
      end ].

Ltac exec := cbn in *; repeat (exec_step; cbn in *; try discriminate).

Ltac unfold_monad :=
  unfold render, jsonify_with, jsonify, method_of, get_agent_manager,
    get_coordinator, construct, setattr, run_until_complete, new_event_loop,
    set_event_loop, close, print, invoke, emit, lift, try_except, try_finally,
    bind, ret, raise, result_of, state_of, events_of in *.

Ltac unfold_api :=
  unfold serve_api, api_try, api_create_scenario, api_get_weather,
    api_policy_analyze, api_citizen_chat, api_document_process,
    api_agents_collaborate, api_create_scenario_try, api_get_weather_try,
    api_policy_analyze_try, api_citizen_chat_try, api_document_process_try,
    api_agents_collaborate_try in *.

(** *** The events of one loop session *)

Lemma open_loops_inside l t : Forall (inside l) t ->
  forall o rest, open_loops o (t ++ rest) = open_loops o rest.
Proof.
  induction 1 as [|e t He _ IH]; intros o rest; [reflexivity|].
  destruct e; cbn in *; try contradiction; apply IH.
Qed.

Lemma discipline_inside l t : Forall (inside l) t ->
  forall o rest, existsb (Nat.eqb l) o = true ->
  discipline o (t ++ rest) = discipline o rest.
Proof.
  induction 1 as [|e t He _ IH]; intros o rest Ho; [reflexivity|].
  destruct e; cbn in *; try contradiction; subst; rewrite ?Ho; apply IH, Ho.
Qed.

Lemma created_inside l t : Forall (inside l) t ->
  forall rest, created (t ++ rest) = created rest.
Proof.
  induction 1 as [|e t He _ IH]; intros rest; [reflexivity|].
  destruct e; cbn in *; try contradiction; apply IH.
Qed.

Lemma runs_on_app l a b : runs_on l (a ++ b) = runs_on l a + runs_on l b.
Proof.
  induction a as [|e a IH]; [reflexivity|].
  destruct e; cbn; rewrite IH; lia.
Qed.

Lemma runs_on_inside l l' t :
  Forall (inside l) t -> l' <> l -> runs_on l' t = 0.
Proof.
  induction 1 as [|e t He _ IH]; intros Hne; [reflexivity|].
  destruct e; cbn in *; try contradiction; auto.
  subst. destruct (Nat.eqb_spec l' l); [contradiction|]. cbn. auto.
Qed.

(** A [for] loop whose body runs at most one coroutine on [l] per item runs
    at most one per item in all, and stays inside the session. *)
Lemma for_in_session {A B} (l : loop) (body : B -> A -> M B) :
  (forall acc x s,
      same_frame s (state_of (body acc x s)) /\
      Forall (inside l) (events_of (body acc x s)) /\
      runs_on l (events_of (body acc x s)) <= 1) ->
  forall items acc s,
    same_frame s (state_of (for_in items acc body s)) /\
    Forall (inside l) (events_of (for_in items acc body s)) /\
    runs_on l (events_of (for_in items acc body s)) <= length items.
Proof.
  intros Hbody. induction items as [|x items IH]; intros acc s.
  - cbn. repeat split; auto with arith.
  - specialize (Hbody acc x s). cbn [for_in]. unfold bind.
    destruct (body acc x s) as [[[acc'|e] s1] t1]; cbn in Hbody |- *.
    + specialize (IH acc' s1).
      destruct (for_in items acc' body s1) as [[r s2] t2]; cbn in IH |- *.
      destruct Hbody as ((?&?&?&?)&?&?), IH as ((?&?&?&?)&?&?).
      repeat split; try congruence.
      * apply Forall_app; auto.
      * rewrite runs_on_app. lia.
    + destruct Hbody as (?&?&?). repeat split; auto; try apply H. lia.
Qed.

Ltac session_loop :=
  match goal with
  | |- context [for_in ?items ?acc ?body ?s0] =>
      let H := fresh "Hloop" in
      assert (H : same_frame s0 (state_of (for_in items acc body s0)) /\
                  Forall (inside (pred (next_loop s0)))
                    (events_of (for_in items acc body s0)) /\
                  runs_on (pred (next_loop s0))
                    (events_of (for_in items acc body s0)) <= length items);
      [ apply for_in_session; intros; unfold_monad; exec;
        repeat split; repeat constructor
      | destruct (for_in items acc body s0) as [[? ?] ?] ]
  end.

Ltac trace_step :=
  first
    [ rewrite Nat.eqb_refl
    | rewrite eqb_succ_l
    | rewrite eqb_succ_r
    | progress cbn in *
    | rewrite app_nil_r
    | rewrite runs_on_app
    | erewrite open_loops_inside by eassumption
    | erewrite discipline_inside
        by first [ eassumption | cbn; rewrite ?Nat.eqb_refl; reflexivity ]
    | erewrite created_inside by eassumption ].

Ltac trace_simpl := repeat trace_step.

Ltac known_documents :=
  try unfold policy_documents_of;
  repeat match goal with
         | H : ?X = _ |- context [rbind ?X _] => rewrite H; cbn [rbind]
         | H : ?X = _ |- context [match ?X with _ => _ end] => rewrite H
         end.

Ltac one_of_loops :=
  intros;
  repeat match goal with
         | H : _ \/ _ |- _ => destruct H
         | H : False |- _ => contradiction
         end;
  subst; trace_simpl;
  try (erewrite runs_on_inside by first [ eassumption | lia ]);
  try reflexivity; try lia.

Ltac split_loops :=
  lazymatch goal with
  | |- exists first second, ?L = _ /\ _ =>
      first
        [ exists L, []; repeat split; cbn; try lia; solve [ one_of_loops ]
        | exists [], L; repeat split; cbn; try lia; known_documents;
          solve [ one_of_loops ]
        | lazymatch L with
          | [?l0; ?l1] =>
              exists [l0], [l1]; repeat split; cbn; try lia; known_documents;
              solve [ one_of_loops ]
          end ]
  end.

Lemma serve_api_loops (a : api) (s : State) :
  open_loops [] (events_of (serve_api a s)) = [] /\
  discipline [] (events_of (serve_api a s)) = Some [] /\
  loop_use a (events_of (serve_api a s)).
Proof.
  destruct a; unfold loop_use; unfold_api; unfold_monad; exec.
  all: try session_loop; exec.
  all: try match goal with
           | H : same_frame _ _ /\ _ |- _ =>
               destruct H as ((?&?&?&?)&?&?)
           end.
  all: split; [ trace_simpl; reflexivity | split ];
       [ trace_simpl; reflexivity | ].
  all: trace_simpl.
  all: try split_loops.
  all: try (split; [ lia | solve [ one_of_loops ] ]).
Qed.

(** C1.  Every event loop an API handler creates during a request is closed
    before the handler returns, on every execution path (the awaited
    coroutine returning, raising an exception that [except Exception]
    catches, or raising one that it does not): no loop is open after the
    events of the handler, and every loop operation was made on a loop that
    was open at that moment. *)
Theorem loops_closed_before_return (a : api) (s : State) :
  open_loops [] (events_of (serve_api a s)) = [] /\
  discipline [] (events_of (serve_api a s)) = Some [].
Proof.
  destruct (serve_api_loops a s) as (Hopen & Hdisc & _). split; assumption.
Qed.

(** *** Sessions: which coroutine runs on which loop *)

Lemma falsy_has_no_items (v : pyval) :
  truthy v = false ->
  match py_iter v with Ok items => items | Raise _ => [] end = [].
Proof.
  destruct v as [| | | |s|l|d]; cbn; try reflexivity.
  - destruct s; [reflexivity|discriminate].
  - destruct l; [reflexivity|discriminate].
  - destruct d; [reflexivity|discriminate].
Qed.

Arguments policy_runs : simpl never.
Arguments policy_coroutines : simpl never.

Lemma sessions_from_policy_runs l pc documents :
  forall cs done rest,
    sessions_from (Ready l cs) done (policy_runs l pc documents ++ rest)
    = sessions_from (Ready l (cs ++ policy_coroutines pc documents)) done rest.
Proof.
  unfold policy_runs, policy_coroutines.
  induction documents as [|p documents IH]; intros cs done rest.
  - cbn. rewrite app_nil_r. reflexivity.
  - cbn. rewrite Nat.eqb_refl. rewrite IH. rewrite <- app_assoc. reflexivity.
Qed.

(** The [for] loop over the policy documents: one [run_until_complete] of
    [analyze_policy_text] per document, in order, up to and including the
    first that raises. *)
Lemma for_in_policy_runs {B} (l : loop) (pc : obj)
    (body : B -> pyval -> M B) :
  (forall acc x s,
      same_frame s (state_of (body acc x s)) /\
      events_of (body acc x s) = [EvRun l; EvCall (analyze_policy_text pc x)] /\
      (forall e, result_of (body acc x s) = Raise e ->
                 exists w w',
                   perform (analyze_policy_text pc x) w = (Raise e, w'))) ->
  forall items acc s,
    same_frame s (state_of (for_in items acc body s)) /\
    match result_of (for_in items acc body s) with
    | Ok _ => events_of (for_in items acc body s) = policy_runs l pc items
    | Raise e =>
        exists before policy after w w',
          items = before ++ policy :: after /\
          events_of (for_in items acc body s)
          = policy_runs l pc (before ++ [policy]) /\
          perform (analyze_policy_text pc policy) w = (Raise e, w')
    end.
Proof.
  unfold policy_runs.
  intros Hbody. induction items as [|x items IH]; intros acc s.
  - cbn. repeat split; auto.
  - specialize (Hbody acc x s). cbn [for_in]. unfold bind.
    destruct (body acc x s) as [[[acc'|e] s1] t1];
      unfold result_of, state_of, events_of in Hbody; cbn in Hbody.
    + specialize (IH acc' s1).
      destruct (for_in items acc' body s1) as [[[r|e] s2] t2];
        unfold result_of, state_of, events_of in IH |- *; cbn in IH |- *;
        destruct Hbody as ((?&?&?&?)&Hev&_), IH as ((?&?&?&?)&IH); subst t1.
      * split; [repeat split; congruence|]. rewrite IH. reflexivity.
      * split; [repeat split; congruence|].
        destruct IH as (before & policy & after & w & w' & -> & -> & Hp).
        exists (x :: before), policy, after, w, w'. repeat split; auto.
    + unfold result_of, state_of, events_of; cbn.
      destruct Hbody as (Hf & Hev & Hr). split; [exact Hf|].
      destruct (Hr e eq_refl) as (w & w' & Hp).
      exists [], x, items, w, w'. repeat split; auto.
Qed.

Ltac policy_loop pc :=
  match goal with
  | |- context [for_in ?items ?acc ?body ?s0] =>
      let H := fresh "Hloop" in
      pose proof (@for_in_policy_runs _ (pred (next_loop s0)) pc body) as H;
      match type of H with
      | ?P -> _ =>
          let Hb := fresh in
          assert (Hb : P);
          [ clear H; intros; unfold_monad; exec; repeat split;
            try discriminate;
            let He := fresh in
            intros ? He; inversion He; subst; do 2 eexists; eassumption
          | specialize (H Hb items acc s0); clear Hb;
            destruct (for_in items acc body s0) as [[[?|?] ?] ?];
            unfold result_of, state_of, events_of in H; cbn in H ]
      end
  end.

Lemma serve_api_sessions (a : api) (s : State) :
  exists ss,
    sessions (events_of (serve_api a s)) = Some ss /\
    session_use a s (result_of (serve_api a s)) ss.
Proof.
  destruct a; unfold session_use, sessions; unfold_api; unfold_monad; exec.
  all: try match goal with
           | H : AgentManager.policy_checker _ = Some ?pc |- _ =>
               policy_loop pc
           end; exec.
  all: rewrite ?Nat.eqb_refl; cbn.
  (* the handlers with one loop *)
  all: try (eexists; split; [reflexivity|]; split; [eauto 12|];
            let H := fresh in
            intros (? & H & ?); inversion H; subst; cbn in *;
            try discriminate; try split; congruence).
  (* [api_agents_collaborate] *)
  all: repeat match goal with
              | H : same_frame _ _ /\ _ |- _ => destruct H as (_ & H)
              | H : exists _, _ |- _ => destruct H as (? & H)
              | H : _ /\ _ |- _ => destruct H
              end; subst.
  all: rewrite ?app_nil_r.
  all: rewrite ?sessions_from_policy_runs; cbn; rewrite ?Nat.eqb_refl; cbn.
  all: eexists; (split; [reflexivity|]).
  all: lazymatch goal with
       | |- exists first second, [] = _ /\ _ => exists [], []
       | |- exists first second,
              [(?l, [Coroutine (coordinate_response ?c ?sc)])] = _ /\ _ =>
           exists [(l, [Coroutine (coordinate_response c sc)])], []
       | |- exists first second, [?x] = _ /\ _ => exists [], [x]
       | |- exists first second, [?x; ?y] = _ /\ _ => exists [x], [y]
       end.
  all: (split; [reflexivity|]).
  all: (split; [eauto 8|]).
  all: try destruct (AgentManager.policy_checker (agent_manager s)) eqn:Hpc;
       cbn in *; try discriminate.
  all: split;
       [ lazymatch goal with
         | |- [] = [] \/ _ => left; reflexivity
         | |- [(?l, policy_coroutines ?pc ?docs)] = [] \/ _ =>
             right; exists l, pc, docs
         | |- [(?l, [])] = [] \/ _ =>
             right; exists l; eexists; exists []
         end;
         try (split; [reflexivity|]; split; [reflexivity|];
              unfold analysed_until_raise; known_documents; eauto 12)
       | let H := fresh in
         intros (? & H & ?); inversion H; subst; cbn in *;
         try discriminate ].
  all: try destruct (AgentManager.coordinator (agent_manager s)) eqn:Hco;
       cbn in *; try discriminate.
  all: (split; [congruence|]).
  all: let Hp := fresh in
       intros ? Hp; inversion Hp; subst; rewrite ?app_nil_r;
       known_documents; try reflexivity.
  all: rewrite falsy_has_no_items by assumption; reflexivity.
Qed.

(** C2, amended.  The only concurrency operations of an API handler are
    sessions "create an event loop, set it, run coroutines on it one after
    the other, close it": the handler never has two loops open at once,
    every [run_until_complete] runs one coroutine, on the open loop, and no
    method of an agent is called outside a session.
    [api_create_scenario], [api_policy_analyze], [api_citizen_chat] and
    [api_document_process] create at most one loop per request and run
    exactly one coroutine on it ([coordinate_response]; [analyze_document]
    or [analyze_policy_text] of the manager's policy checker; [chat] of its
    citizen assistant; [process_document] of its document agent), and they
    create it whenever they answer 200.  [api_get_weather] creates at most
    one loop and runs on it [get_current_conditions] with the parsed [lat]
    and [lon], once, or nothing; it runs it whenever it answers 200.
    [api_agents_collaborate] creates at most two loops per request: first
    one on which it runs [coordinate_response] of the manager's coordinator
    once, then one on which it runs [analyze_policy_text] of the manager's
    policy checker for the policy documents in order, up to and including
    the first whose analysis raises.  When it answers 200, the first loop is
    there if the manager holds a coordinator, and the coroutines of the
    second are those of all the policy documents. *)
Theorem loop_sessions (a : api) (s : State) :
  discipline [] (events_of (serve_api a s)) = Some [] /\
  loop_use a (events_of (serve_api a s)) /\
  exists ss,
    sessions (events_of (serve_api a s)) = Some ss /\
    session_use a s (result_of (serve_api a s)) ss.
Proof.
  destruct (serve_api_loops a s) as (_ & Hdisc & Huse).
  split; [assumption|]. split; [assumption|]. apply serve_api_sessions.
Qed.

(** C3.  The emergency coordinator is instantiated lazily.  When
    [agent_manager.coordinator] holds an instance, [get_coordinator] returns
    it and changes nothing.  When it is [None], [get_coordinator] constructs
    one [EmergencyResponseCoordinator], stores it in the manager and returns
    it (and stores nothing if the constructor raises).  Hence a call that
    returns is idempotent: the next call returns the same instance, creates
    nothing and leaves the state as it is. *)
Theorem get_coordinator_lazy (s : State) :
  match AgentManager.coordinator (agent_manager s) with
  | Some c => get_coordinator s = (Ok c, s, [])
  | None =>
      let o := next_obj s in
      events_of (get_coordinator s)
      = [EvCall (EmergencyResponseCoordinator__init o)] /\
      match perform (EmergencyResponseCoordinator__init o) (world s) with
      | (Ok _, _) =>
          result_of (get_coordinator s) = Ok o /\
          agent_manager (state_of (get_coordinator s))
          = AgentManager.set_coordinator (agent_manager s) o
      | (Raise e, _) =>
          result_of (get_coordinator s) = Raise e /\
          agent_manager (state_of (get_coordinator s)) = agent_manager s
      end
  end /\
  (forall c s1 t1,
      get_coordinator s = (Ok c, s1, t1) ->
      AgentManager.coordinator (agent_manager s1) = Some c /\
      get_coordinator s1 = (Ok c, s1, [])).
Proof.
  split.
  - unfold get_coordinator.
    destruct (AgentManager.coordinator (agent_manager s)) eqn:Hc;
      [reflexivity|].
    unfold_monad. cbn.
    destruct (perform _ _) as [[[]|e] w]; cbn; repeat split.
  - intros c s1 t1. unfold get_coordinator.
    destruct (AgentManager.coordinator (agent_manager s)) eqn:Hc.
    + intros H; inversion H; subst. rewrite Hc. split; reflexivity.
    + unfold_monad. cbn.
      destruct (perform _ _) as [[[]|e] w]; cbn; intros H; inversion H; subst.
      cbn. split; reflexivity.
Qed.

(** *** Page routes *)

Ltac unfold_pages :=
  unfold serve_page, index, dashboard, create_scenario, scenarios, view_plan,
    map_view, reports, agents_hub, policy_compliance, citizen_assistant,
    document_eligibility in *.

(** C7.  Every plain page route ([index], [dashboard], [create_scenario],
    [scenarios], [view_plan], [map_view], [reports], [policy_compliance],
    [citizen_assistant], [document_eligibility], [agents_hub]) only renders
    a template, and leaves the agent manager as it was: its [coordinator],
    [policy_checker], [citizen_assistant], [document_agent] and
    [initialized] attributes after the handler are the ones before. *)
Theorem pages_leave_manager (p : page) (s : State) :
  agent_manager (state_of (serve_page p s)) = agent_manager s /\
  exists template context,
    events_of (serve_page p s) = [EvCall (render_template template context)].
Proof.
  destruct p; unfold_pages; unfold_monad; exec; split; eauto.
Qed.

(** *** The [except] clauses *)

Lemma try_except_catches {A} (m : M A) (h : exn -> M A) (s : State) :
  (forall e s1, exists a, h e s1 = (Ok a, s1, [])) ->
  forall e, result_of (try_except m h s) = Raise e -> is_Exception e = false.
Proof.
  intros Hh e. unfold try_except, result_of.
  destruct (m s) as [[[a|e'] s1] t1]; cbn; [discriminate|].
  destruct (is_Exception e') eqn:He'.
  - destruct (Hh e' s1) as [a Ha]. rewrite Ha. cbn. discriminate.
  - cbn. intros H; inversion H; subst. exact He'.
Qed.

(** C8, amended.  No API endpoint lets an instance of [Exception] escape: an
    exception that [except Exception] catches, raised inside the [try] block
    of [api_create_scenario] or [api_get_weather], produces an HTTP 400
    response, one raised inside [api_policy_analyze], [api_citizen_chat],
    [api_document_process] or [api_agents_collaborate] an HTTP 500 response,
    and in all cases the body is the JSON object with ['success'] false and
    ['error'] the string form of the exception; nothing a handler lets
    through is an instance of [Exception].  An exception that derives from
    [BaseException] only ([asyncio.CancelledError], [KeyboardInterrupt],
    [SystemExit]) is not caught: it leaves the handler as it was raised.  A
    [try] block that returns gives the handler's answer.
    [api_agents_status], the endpoint without a [try], raises nothing. *)
Theorem exceptions_become_responses (a : api) (s : State) :
  (forall e s' t,
      api_try a s = (Raise e, s', t) -> is_Exception e = true ->
      serve_api a s
      = (Ok {| body := Json (VDict [("success", VBool false);
                                    ("error", VStr (exn_str e))]);
               status := except_status a |}, s', t)) /\
  (forall e, result_of (serve_api a s) = Raise e -> is_Exception e = false) /\
  (exists resp, result_of (api_agents_status s) = Ok resp) /\
  (forall e s' t,
      api_try a s = (Raise e, s', t) -> is_Exception e = false ->
      serve_api a s = (Raise e, s', t)) /\
  (forall resp s' t,
      api_try a s = (Ok resp, s', t) -> serve_api a s = (Ok resp, s', t)).
Proof.
  split; [|split; [|split; [|split]]].
  - intros e s' t Htry He.
    destruct a; cbn [api_try serve_api except_status] in *;
      unfold api_create_scenario, api_get_weather, api_policy_analyze,
        api_citizen_chat, api_document_process, api_agents_collaborate,
        try_except;
      rewrite Htry, He; cbn; rewrite app_nil_r; reflexivity.
  - destruct a; cbn [serve_api];
      apply try_except_catches; intros; eexists; reflexivity.
  - eexists. reflexivity.
  - intros e s' t Htry He.
    destruct a; cbn [api_try serve_api] in *;
      unfold api_create_scenario, api_get_weather, api_policy_analyze,
        api_citizen_chat, api_document_process, api_agents_collaborate,
        try_except;
      rewrite Htry, He; reflexivity.
  - intros resp s' t Htry.
    destruct a; cbn [api_try serve_api] in *;
      unfold api_create_scenario, api_get_weather, api_policy_analyze,
        api_citizen_chat, api_document_process, api_agents_collaborate,
        try_except;
      rewrite Htry; reflexivity.
Qed.

(** *** The status report *)

(** C9.  [/api/agents/status] reports for each agent ['available'] true
    exactly when the manager's attribute ([coordinator], [policy_checker],
    [citizen_assistant], [document_agent]) is not [None], ['status']
    ['active'] under the same condition and ['unavailable'] otherwise, and
    ['system_status'] ['operational'] exactly when [initialized] is true and
    ['initializing'] otherwise; it changes nothing. *)
Theorem agents_status_report (s : State) :
  api_agents_status s
  = (Ok {| body :=
             Json
               (VDict
                  [("emergency_response",
                    status_entry (AgentManager.coordinator (agent_manager s)));
                   ("policy_compliance",
                    status_entry
                      (AgentManager.policy_checker (agent_manager s)));
                   ("citizen_assistant",
                    status_entry
                      (AgentManager.citizen_assistant (agent_manager s)));
                   ("document_eligibility",
                    status_entry
                      (AgentManager.document_agent (agent_manager s)));
                   ("system_status",
                    VStr (if AgentManager.initialized (agent_manager s)
                          then "operational" else "initializing"))]);
           status := 200 |}, s, []).
Proof.
  unfold api_agents_status, agent_entry, status_entry. unfold_monad. cbn.
  destruct (AgentManager.coordinator (agent_manager s)),
    (AgentManager.policy_checker (agent_manager s)),
    (AgentManager.citizen_assistant (agent_manager s)),
    (AgentManager.document_agent (agent_manager s)); reflexivity.
Qed.

(** *** Initialization *)

Ltac unfold_initialize :=
  unfold initialize, initialize_all, initialize_fallback, read_globals in *.

(** The outer [try] block returns only [True], with [initialized] set; when
    it raises, [initialized] is as before. *)
Lemma initialize_all_outcome (s : State) :
  match result_of (initialize_all s) with
  | Ok b =>
      b = true /\
      AgentManager.initialized (agent_manager (state_of (initialize_all s)))
      = true
  | Raise _ =>
      AgentManager.initialized (agent_manager (state_of (initialize_all s)))
      = AgentManager.initialized (agent_manager s)
  end.
Proof.
  unfold_initialize; unfold_monad; exec; auto.
Qed.

Lemma initialize_fallback_outcome (s : State) :
  match result_of (initialize_fallback s) with
  | Ok b =>
      b = true /\
      AgentManager.initialized
        (agent_manager (state_of (initialize_fallback s))) = true
  | Raise _ =>
      AgentManager.initialized
        (agent_manager (state_of (initialize_fallback s)))
      = AgentManager.initialized (agent_manager s)
  end.
Proof.
  unfold_initialize; unfold_monad; exec; auto.
Qed.

Lemma initialize_fallback_calls (s : State) :
  Forall coordinator_only (events_of (initialize_fallback s)).
Proof.
  unfold_initialize; unfold_monad; exec; repeat constructor.
Qed.

(** [initialize], by the outcomes of its two [try] blocks *)
Lemma initialize_cases (s : State) :
  initialize s
  = match initialize_all s with
    | (Ok b, s1, t1) => (Ok b, s1, t1)
    | (Raise e, s1, t1) =>
        if is_Exception e
        then
          match initialize_fallback s1 with
          | (Ok b, s2, t2) =>
              (Ok b, s2,
               t1 ++ EvPrint ("Error initializing agents: " ++ exn_str e)
                  :: t2)
          | (Raise e2, s2, t2) =>
              if is_Exception e2
              then (Ok false, s2,
                    t1 ++ EvPrint ("Error initializing agents: " ++ exn_str e)
                       :: t2
                       ++ [EvPrint ("Critical error: " ++ exn_str e2)])
              else (Raise e2, s2,
                    t1 ++ EvPrint ("Error initializing agents: " ++ exn_str e)
                       :: t2)
          end
        else (Raise e, s1, t1)
    end.
Proof.
  unfold initialize, try_except at 1.
  destruct (initialize_all s) as [[[b|e] s1] t1]; [reflexivity|].
  destruct (is_Exception e); [|reflexivity].
  unfold bind at 1, print, emit, try_except. cbn.
  destruct (initialize_fallback s1) as [[[b|e2] s2] t2]; cbn;
    [reflexivity|].
  destruct (is_Exception e2); cbn; reflexivity.
Qed.

(** What [initialize] returns, by the outcomes of its two stages *)
Lemma initialize_outcomes (s : State) :
  (forall s',
      (exists t, initialize s = (Ok true, s', t)) <->
      ((exists t, initialize_all s = (Ok true, s', t)) \/
       (exists e s1 t1 t2,
           initialize_all s = (Raise e, s1, t1) /\ is_Exception e = true /\
           initialize_fallback s1 = (Ok true, s', t2)))) /\
  (forall s',
      (exists t, initialize s = (Ok false, s', t)) <->
      (exists e s1 t1 e2 t2,
          initialize_all s = (Raise e, s1, t1) /\ is_Exception e = true /\
          initialize_fallback s1 = (Raise e2, s', t2) /\
          is_Exception e2 = true)) /\
  (forall s' t,
      initialize s = (Ok true, s', t) ->
      AgentManager.initialized (agent_manager s') = true) /\
  (forall s' t,
      initialize s = (Ok false, s', t) ->
      AgentManager.initialized (agent_manager s')
      = AgentManager.initialized (agent_manager s)) /\
  (forall s1, Forall coordinator_only (events_of (initialize_fallback s1))).
Proof.
  pose proof (initialize_cases s) as Hc.
  pose proof (initialize_all_outcome s) as Ha.
  destruct (initialize_all s) as [[[b|e] s1] t1] eqn:Hall;
    unfold result_of, state_of in Ha; cbn in Ha.
  - (* the full path completes *)
    destruct Ha as [-> Hinit].
    repeat split.
    + intros [t Ht]. left. rewrite Hc in Ht. inversion Ht; subst. eauto.
    + intros [[t Ht]|(e & s2 & t2 & t3 & Hr & _)]; [|discriminate].
      inversion Ht; subst. eauto.
    + intros [t Ht]. rewrite Hc in Ht. discriminate.
    + intros (e & s2 & t2 & e2 & t3 & Hr & _). discriminate.
    + intros s' t Ht. rewrite Hc in Ht. inversion Ht; subst. exact Hinit.
    + intros s' t Ht. rewrite Hc in Ht. discriminate.
    + apply initialize_fallback_calls.
  - (* the full path raises *)
    destruct (is_Exception e) eqn:He.
    + pose proof (initialize_fallback_outcome s1) as Hf.
      destruct (initialize_fallback s1) as [[[b|e2] s2] t2] eqn:Hfb;
        unfold result_of, state_of in Hf; cbn in Hf.
      * (* the fallback completes *)
        destruct Hf as [-> Hinit].
        repeat split.
        -- intros [t Ht]. right. rewrite Hc in Ht. inversion Ht; subst.
           exists e, s1, t1, t2. rewrite Hfb. auto.
        -- intros [[t Ht]|(e' & s3 & t3 & t4 & Hr & _ & Hf')];
             [discriminate|].
           inversion Hr; subst. rewrite Hfb in Hf'. inversion Hf'; subst.
           eauto.
        -- intros [t Ht]. rewrite Hc in Ht. discriminate.
        -- intros (e' & s3 & t3 & e2 & t4 & Hr & _ & Hf' & _).
           inversion Hr; subst. rewrite Hfb in Hf'. discriminate.
        -- intros s' t Ht. rewrite Hc in Ht. inversion Ht; subst.
           exact Hinit.
        -- intros s' t Ht. rewrite Hc in Ht. discriminate.
        -- apply initialize_fallback_calls.
      * (* the fallback raises *)
        destruct (is_Exception e2) eqn:He2.
        -- repeat split.
           ++ intros [t Ht]. rewrite Hc in Ht. discriminate.
           ++ intros [[t Ht]|(e' & s3 & t3 & t4 & Hr & _ & Hf')];
                [discriminate|].
              inversion Hr; subst. rewrite Hfb in Hf'. discriminate.
           ++ intros [t Ht]. rewrite Hc in Ht. inversion Ht; subst.
              exists e, s1, t1, e2, t2. rewrite Hfb. auto.
           ++ intros (e' & s3 & t3 & e3 & t4 & Hr & _ & Hf' & _).
              inversion Hr; subst. rewrite Hfb in Hf'. inversion Hf'; subst.
              eauto.
           ++ intros s' t Ht. rewrite Hc in Ht. discriminate.
           ++ intros s' t Ht. rewrite Hc in Ht. inversion Ht; subst.
              congruence.
           ++ apply initialize_fallback_calls.
        -- repeat split.
           ++ intros [t Ht]. rewrite Hc in Ht. discriminate.
           ++ intros [[t Ht]|(e' & s3 & t3 & t4 & Hr & _ & Hf')];
                [discriminate|].
              inversion Hr; subst. rewrite Hfb in Hf'. discriminate.
           ++ intros [t Ht]. rewrite Hc in Ht. discriminate.
           ++ intros (e' & s3 & t3 & e3 & t4 & Hr & _ & Hf' & He3).
              inversion Hr; subst. rewrite Hfb in Hf'. inversion Hf'; subst.
              congruence.
           ++ intros s' t Ht. rewrite Hc in Ht. discriminate.
           ++ intros s' t Ht. rewrite Hc in Ht. discriminate.
           ++ apply initialize_fallback_calls.
    + repeat split.
      * intros [t Ht]. rewrite Hc in Ht. discriminate.
      * intros [[t Ht]|(e' & s3 & t3 & t4 & Hr & He' & _)];
          [discriminate|].
        inversion Hr; subst. congruence.
      * intros [t Ht]. rewrite Hc in Ht. discriminate.
      * intros (e' & s3 & t3 & e3 & t4 & Hr & He' & _).
        inversion Hr; subst. congruence.
      * intros s' t Ht. rewrite Hc in Ht. discriminate.
      * intros s' t Ht. rewrite Hc in Ht. discriminate.
      * apply initialize_fallback_calls.
Qed.

(** The fallback, step by step: it constructs a coordinator, stores it,
    awaits its [initialize()], prints, and sets [initialized]. *)
Lemma initialize_fallback_steps (s1 : State) :
  let c := next_obj s1 in
  let constructed m w :=
    {| agent_manager := m; globals := globals s1; world := w;
       next_obj := S c; next_loop := next_loop s1 |} in
  match perform (EmergencyResponseCoordinator__init c) (world s1) with
  | (Raise e, w1) =>
      initialize_fallback s1
      = (Raise e, constructed (agent_manager s1) w1,
         [EvCall (EmergencyResponseCoordinator__init c)])
  | (Ok _, w1) =>
      match perform (coordinator_initialize c) w1 with
      | (Raise e, w2) =>
          initialize_fallback s1
          = (Raise e,
             constructed (AgentManager.set_coordinator (agent_manager s1) c)
               w2,
             [EvCall (EmergencyResponseCoordinator__init c);
              EvCall (coordinator_initialize c)])
      | (Ok _, w2) =>
          initialize_fallback s1
          = (Ok true,
             constructed
               (AgentManager.set_initialized
                  (AgentManager.set_coordinator (agent_manager s1) c) true)
               w2,
             [EvCall (EmergencyResponseCoordinator__init c);
              EvCall (coordinator_initialize c);
              EvPrint
                "✓ Emergency Response Coordinator initialized (fallback mode)"])
      end
  end.
Proof.
  unfold_initialize; unfold_monad; exec; reflexivity.
Qed.

(** After an [Exception] of the full path, [initialize] prints the error and
    runs the fallback from the state the full path left. *)
Lemma initialize_after_Exception (s : State) (e : exn) (s1 : State)
    (t1 : list event) :
  initialize_all s = (Raise e, s1, t1) -> is_Exception e = true ->
  result_of (initialize s)
  = match result_of (initialize_fallback s1) with
    | Ok b => Ok b
    | Raise e2 => if is_Exception e2 then Ok false else Raise e2
    end /\
  state_of (initialize s) = state_of (initialize_fallback s1) /\
  events_of (initialize s)
  = t1 ++ EvPrint ("Error initializing agents: " ++ exn_str e)
       :: events_of (initialize_fallback s1)
       ++ match result_of (initialize_fallback s1) with
          | Raise e2 =>
              if is_Exception e2
              then [EvPrint ("Critical error: " ++ exn_str e2)] else []
          | Ok _ => []
          end.
Proof.
  intros Hall He. rewrite (initialize_cases s), Hall, He.
  destruct (initialize_fallback s1) as [[[b|e2] s2] t2]; cbn.
  - rewrite app_nil_r. auto.
  - destruct (is_Exception e2); cbn; rewrite ?app_nil_r; auto.
Qed.

Lemma initialize_all_ready (s s' : State) (b : bool) (t : list event) :
  initialize_all s = (Ok b, s', t) -> coordinator_ready s' t.
Proof.
  unfold coordinator_ready. unfold_initialize; unfold_monad; exec.
  all: intros Hr; inversion Hr; subst; cbn.
  all: repeat match goal with u : unit |- _ => destruct u end.
  all: do 3 eexists; repeat split;
       [ right; left; reflexivity
       | match goal with
         | H : perform (coordinator_initialize _) _ = _ |- _ => exact H
         end ].
Qed.

Lemma initialize_fallback_ready (s s' : State) (b : bool) (t : list event) :
  initialize_fallback s = (Ok b, s', t) -> coordinator_ready s' t.
Proof.
  unfold coordinator_ready. unfold_initialize; unfold_monad; exec.
  all: intros Hr; inversion Hr; subst; cbn.
  all: repeat match goal with u : unit |- _ => destruct u end.
  all: do 3 eexists; repeat split;
       [ right; left; reflexivity
       | match goal with
         | H : perform (coordinator_initialize _) _ = _ |- _ => exact H
         end ].
Qed.

(** [initialize] returning [True] leaves a coordinator whose [initialize()]
    was awaited and returned. *)
Lemma initialize_true_ready (s s' : State) (t : list event) :
  initialize s = (Ok true, s', t) -> coordinator_ready s' t.
Proof.
  rewrite initialize_cases.
  destruct (initialize_all s) as [[[b|e] s1] t1] eqn:Hall.
  - intros Hr; inversion Hr; subst. exact (initialize_all_ready s Hall).
  - destruct (is_Exception e); [|discriminate].
    destruct (initialize_fallback s1) as [[[b|e2] s2] t2] eqn:Hfb.
    + intros Hr; inversion Hr; subst.
      destruct (initialize_fallback_ready s1 Hfb)
        as (c & w & w' & Hc & Hin & Hp).
      exists c, w, w'. repeat split; [exact Hc| |exact Hp].
      apply in_or_app. right. right. exact Hin.
    + destruct (is_Exception e2); discriminate.
Qed.

(** C10, amended.  [IntegratedAgentManager.initialize] recovers in two
    stages.  If the full path (every imported agent) raises an instance of
    [Exception], [initialize] prints the error and falls back to the
    [EmergencyResponseCoordinator] only: the fallback constructs a
    coordinator, stores it in the manager and awaits its [initialize()],
    and calls nothing else.  [initialize] returns [True] exactly when the
    full path completes or, the full path having raised, the fallback
    completes; then [initialized] is [True] and the manager holds a
    coordinator whose [initialize()] has returned.  It returns [False]
    exactly when the fallback raises an instance of [Exception] too, and
    then [initialized] is left as it was ([False] on the manager the module
    creates).  An exception that derives from [BaseException] only is not
    caught: raised by the full path it leaves [initialize] without any
    fallback. *)
Theorem initialize_recovery (s : State) :
  (forall s',
      (exists t, initialize s = (Ok true, s', t)) <->
      ((exists t, initialize_all s = (Ok true, s', t)) \/
       (exists e s1 t1 t2,
           initialize_all s = (Raise e, s1, t1) /\ is_Exception e = true /\
           initialize_fallback s1 = (Ok true, s', t2)))) /\
  (forall s',
      (exists t, initialize s = (Ok false, s', t)) <->
      (exists e s1 t1 e2 t2,
          initialize_all s = (Raise e, s1, t1) /\ is_Exception e = true /\
          initialize_fallback s1 = (Raise e2, s', t2) /\
          is_Exception e2 = true)) /\
  (forall s' t,
      initialize s = (Ok true, s', t) ->
      AgentManager.initialized (agent_manager s') = true) /\
  (forall s' t,
      initialize s = (Ok false, s', t) ->
      AgentManager.initialized (agent_manager s')
      = AgentManager.initialized (agent_manager s)) /\
  (forall s1, Forall coordinator_only (events_of (initialize_fallback s1))) /\
  (* the fallback constructs the coordinator and awaits its initialize() *)
  (forall s1,
      let c := next_obj s1 in
      let constructed m w :=
        {| agent_manager := m; globals := globals s1; world := w;
           next_obj := S c; next_loop := next_loop s1 |} in
      match perform (EmergencyResponseCoordinator__init c) (world s1) with
      | (Raise e, w1) =>
          initialize_fallback s1
          = (Raise e, constructed (agent_manager s1) w1,
             [EvCall (EmergencyResponseCoordinator__init c)])
      | (Ok _, w1) =>
          match perform (coordinator_initialize c) w1 with
          | (Raise e, w2) =>
              initialize_fallback s1
              = (Raise e,
                 constructed
                   (AgentManager.set_coordinator (agent_manager s1) c) w2,
                 [EvCall (EmergencyResponseCoordinator__init c);
                  EvCall (coordinator_initialize c)])
          | (Ok _, w2) =>
              initialize_fallback s1
              = (Ok true,
                 constructed
                   (AgentManager.set_initialized
                      (AgentManager.set_coordinator (agent_manager s1) c)
                      true) w2,
                 [EvCall (EmergencyResponseCoordinator__init c);
                  EvCall (coordinator_initialize c);
                  EvPrint
                    "✓ Emergency Response Coordinator initialized (fallback mode)"])
          end
      end) /\
  (* an Exception of the full path is followed by the fallback *)
  (forall e s1 t1,
      initialize_all s = (Raise e, s1, t1) -> is_Exception e = true ->
      result_of (initialize s)
      = match result_of (initialize_fallback s1) with
        | Ok b => Ok b
        | Raise e2 => if is_Exception e2 then Ok false else Raise e2
        end /\
      state_of (initialize s) = state_of (initialize_fallback s1) /\
      events_of (initialize s)
      = t1 ++ EvPrint ("Error initializing agents: " ++ exn_str e)
           :: events_of (initialize_fallback s1)
           ++ match result_of (initialize_fallback s1) with
              | Raise e2 =>
                  if is_Exception e2
                  then [EvPrint ("Critical error: " ++ exn_str e2)] else []
              | Ok _ => []
              end) /\
  (* what except Exception does not catch leaves initialize *)
  (forall e s1 t1,
      initialize_all s = (Raise e, s1, t1) -> is_Exception e = false ->
      initialize s = (Raise e, s1, t1)) /\
  (forall s' t,
      initialize s = (Ok true, s', t) -> coordinator_ready s' t).
Proof.
  destruct (initialize_outcomes s) as (Htrue & Hfalse & Hset & Hkeep & Hcalls).
  split; [exact Htrue|]. split; [exact Hfalse|]. split; [exact Hset|].
  split; [exact Hkeep|]. split; [exact Hcalls|].
  split; [exact initialize_fallback_steps|].
  split; [exact (@initialize_after_Exception s)|].
  split; [|exact (@initialize_true_ready s)].
  intros e s1 t1 Hall He. rewrite (initialize_cases s), Hall, He.
  reflexivity.
Qed.

(** *** [api_create_scenario] *)



(** *** [api_get_weather] *)

(** What [api_get_weather] can answer *)
Lemma get_weather_outcomes (lat lon : string) (s : State) :
  (forall resp s' t,
      api_get_weather lat lon s = (Ok resp, s', t) ->
      (status resp = 200%Z /\
       exists coord flat flon weather_data,
         py_float (VStr lat) = Ok flat /\
         py_float (VStr lon) = Ok flon /\
         In (EvCall (get_current_conditions coord flat flon)) t /\
         (exists w w',
             perform (get_current_conditions coord flat flon) w
             = (Ok weather_data, w')) /\
         body resp
         = Json
             (VDict
                [("success", VBool true);
                 ("weather",
                  VDict
                    [("temperature", temperature weather_data);
                     ("humidity", humidity weather_data);
                     ("wind_speed", wind_speed weather_data);
                     ("wind_direction", wind_direction weather_data);
                     ("pressure", pressure weather_data);
                     ("visibility", visibility weather_data);
                     ("conditions", conditions weather_data)])])) \/
      (status resp = 400%Z /\
       exists e,
         is_Exception e = true /\
         body resp = Json (VDict [("success", VBool false);
                                  ("error", VStr (exn_str e))]))) /\
  (forall e s' t,
      api_get_weather_try lat lon s = (Raise e, s', t) ->
      is_Exception e = true ->
      api_get_weather lat lon s
      = (Ok {| body := Json (VDict [("success", VBool false);
                                    ("error", VStr (exn_str e))]);
               status := 400 |}, s', t)) /\
  (forall e s' t,
      api_get_weather lat lon s = (Raise e, s', t) ->
      is_Exception e = false) /\
  (forall resp s' t,
      api_get_weather lat lon s = (Ok resp, s', t) ->
      (exists e, py_float (VStr lat) = Raise e) \/
      (exists e, py_float (VStr lon) = Raise e) ->
      status resp = 400%Z).
Proof.
  repeat split.
  - intros resp s' t. unfold_api; unfold_monad; exec.
    all: intros Hrun; inversion Hrun; subst; cbn.
    all: try (right; split; [reflexivity|]; eexists; split;
              [eassumption|reflexivity]).
    all: left; split; [reflexivity|]; do 4 eexists;
         repeat split; try eassumption; try reflexivity;
         try (do 2 eexists; eassumption); cbn; auto 10.
  - intros e s' t Htry He. unfold api_get_weather, try_except.
    rewrite Htry, He. cbn. rewrite app_nil_r. reflexivity.
  - intros e s' t Hrun.
    apply (try_except_catches (api_get_weather_try lat lon)
             (fun e => jsonify_with (error_body e) 400) s).
    + intros; eexists; reflexivity.
    + unfold api_get_weather in Hrun. unfold result_of. rewrite Hrun.
      reflexivity.
  - intros resp s' t. unfold_api; unfold_monad; exec.
    all: intros Hrun; inversion Hrun; subst; cbn; try reflexivity.
    all: intros [[e He]|[e He]]; congruence.
Qed.

(** The paths of [api_get_weather] once the coordinator is there *)
Lemma get_weather_paths (lat lon : string) (s : State) :
  (forall coord s0 t0 flat flon weather_data w,
      get_coordinator s = (Ok coord, s0, t0) ->
      weather_service (world s0) coord = Ok tt ->
      py_float (VStr lat) = Ok flat ->
      py_float (VStr lon) = Ok flon ->
      perform (get_current_conditions coord flat flon) (world s0)
      = (Ok weather_data, w) ->
      api_get_weather lat lon s
      = (Ok {| body :=
                 Json
                   (VDict
                      [("success", VBool true);
                       ("weather",
                        VDict
                          [("temperature", temperature weather_data);
                           ("humidity", humidity weather_data);
                           ("wind_speed", wind_speed weather_data);
                           ("wind_direction", wind_direction weather_data);
                           ("pressure", pressure weather_data);
                           ("visibility", visibility weather_data);
                           ("conditions", conditions weather_data)])]);
               status := 200 |},
         {| agent_manager := agent_manager s0; globals := globals s0;
            world := w; next_obj := next_obj s0;
            next_loop := S (next_loop s0) |},
         t0 ++ [EvNewLoop (next_loop s0); EvSetLoop (next_loop s0);
                EvRun (next_loop s0);
                EvCall (get_current_conditions coord flat flon);
                EvClose (next_loop s0)])) /\
  (forall coord s0 t0 e,
      get_coordinator s = (Ok coord, s0, t0) ->
      weather_service (world s0) coord = Ok tt ->
      (py_float (VStr lat) = Raise e \/
       (exists flat, py_float (VStr lat) = Ok flat) /\
       py_float (VStr lon) = Raise e) ->
      is_Exception e = true ->
      api_get_weather lat lon s
      = (Ok {| body := Json (VDict [("success", VBool false);
                                    ("error", VStr (exn_str e))]);
               status := 400 |},
         {| agent_manager := agent_manager s0; globals := globals s0;
            world := world s0; next_obj := next_obj s0;
            next_loop := S (next_loop s0) |},
         t0 ++ [EvNewLoop (next_loop s0); EvSetLoop (next_loop s0);
                EvClose (next_loop s0)])) /\
  (forall coord s0 t0 flat flon e w,
      get_coordinator s = (Ok coord, s0, t0) ->
      weather_service (world s0) coord = Ok tt ->
      py_float (VStr lat) = Ok flat ->
      py_float (VStr lon) = Ok flon ->
      perform (get_current_conditions coord flat flon) (world s0)
      = (Raise e, w) ->
      is_Exception e = true ->
      api_get_weather lat lon s
      = (Ok {| body := Json (VDict [("success", VBool false);
                                    ("error", VStr (exn_str e))]);
               status := 400 |},
         {| agent_manager := agent_manager s0; globals := globals s0;
            world := w; next_obj := next_obj s0;
            next_loop := S (next_loop s0) |},
         t0 ++ [EvNewLoop (next_loop s0); EvSetLoop (next_loop s0);
                EvRun (next_loop s0);
                EvCall (get_current_conditions coord flat flon);
                EvClose (next_loop s0)])) /\
  (forall e s' t,
      api_get_weather_try lat lon s = (Raise e, s', t) ->
      is_Exception e = false ->
      api_get_weather lat lon s = (Raise e, s', t)).
Proof.
  split; [|split; [|split]].
  - intros coord s0 t0 flat flon wd w Hc Hws Hlat Hlon Hcall.
    unfold_api. unfold try_except, bind at 1. rewrite Hc.
    unfold_monad. cbn. rewrite Hws, Hlat, Hlon. cbn. rewrite Hcall. cbn.
    rewrite ?app_nil_r. reflexivity.
  - intros coord s0 t0 e Hc Hws Hf He.
    unfold_api. unfold try_except, bind at 1. rewrite Hc.
    unfold_monad. cbn. rewrite Hws.
    destruct Hf as [Hlat|[[flat Hlat] Hlon]].
    + rewrite Hlat. cbn. rewrite He. cbn. rewrite ?app_nil_r. reflexivity.
    + rewrite Hlat, Hlon. cbn. rewrite He. cbn. rewrite ?app_nil_r.
      reflexivity.
  - intros coord s0 t0 flat flon e w Hc Hws Hlat Hlon Hcall He.
    unfold_api. unfold try_except, bind at 1. rewrite Hc.
    unfold_monad. cbn. rewrite Hws, Hlat, Hlon. cbn. rewrite Hcall. cbn.
    rewrite He. cbn. rewrite ?app_nil_r. reflexivity.
  - intros e s' t Htry He. unfold api_get_weather, try_except.
    rewrite Htry, He. reflexivity.
Qed.

(** C6, amended.  [api_get_weather] parses the [lat] and [lon] path segments
    as floats and calls [get_current_conditions] of the coordinator's
    weather service with them, on a loop of its own: when both parse and the
    call returns, the answer is HTTP 200 with the JSON object of ['success']
    true and a ['weather'] object with exactly the fields [temperature],
    [humidity], [wind_speed], [wind_direction], [pressure], [visibility] and
    [conditions] of the service's result, and no 200 answer arises
    otherwise.  On any exception that is an instance of [Exception] it
    returns HTTP 400 with ['success'] false and the exception's string form:
    a [lat] or [lon] that [float] refuses gives it without any call of the
    service, a raising [get_current_conditions] after the call.  An
    exception that derives from [BaseException] only is not caught and
    leaves the handler. *)
Theorem get_weather_spec (lat lon : string) (s : State) :
  (* both parse and the service answers: 200 *)
  (forall coord s0 t0 flat flon weather_data w,
      get_coordinator s = (Ok coord, s0, t0) ->
      weather_service (world s0) coord = Ok tt ->
      py_float (VStr lat) = Ok flat ->
      py_float (VStr lon) = Ok flon ->
      perform (get_current_conditions coord flat flon) (world s0)
      = (Ok weather_data, w) ->
      api_get_weather lat lon s
      = (Ok {| body :=
                 Json
                   (VDict
                      [("success", VBool true);
                       ("weather",
                        VDict
                          [("temperature", temperature weather_data);
                           ("humidity", humidity weather_data);
                           ("wind_speed", wind_speed weather_data);
                           ("wind_direction", wind_direction weather_data);
                           ("pressure", pressure weather_data);
                           ("visibility", visibility weather_data);
                           ("conditions", conditions weather_data)])]);
               status := 200 |},
         {| agent_manager := agent_manager s0; globals := globals s0;
            world := w; next_obj := next_obj s0;
            next_loop := S (next_loop s0) |},
         t0 ++ [EvNewLoop (next_loop s0); EvSetLoop (next_loop s0);
                EvRun (next_loop s0);
                EvCall (get_current_conditions coord flat flon);
                EvClose (next_loop s0)])) /\
  (* float refuses lat or lon: 400, and the service is not called *)
  (forall coord s0 t0 e,
      get_coordinator s = (Ok coord, s0, t0) ->
      weather_service (world s0) coord = Ok tt ->
      (py_float (VStr lat) = Raise e \/
       (exists flat, py_float (VStr lat) = Ok flat) /\
       py_float (VStr lon) = Raise e) ->
      is_Exception e = true ->
      api_get_weather lat lon s
      = (Ok {| body := Json (VDict [("success", VBool false);
                                    ("error", VStr (exn_str e))]);
               status := 400 |},
         {| agent_manager := agent_manager s0; globals := globals s0;
            world := world s0; next_obj := next_obj s0;
            next_loop := S (next_loop s0) |},
         t0 ++ [EvNewLoop (next_loop s0); EvSetLoop (next_loop s0);
                EvClose (next_loop s0)])) /\
  (* the service raises an Exception: 400 *)
  (forall coord s0 t0 flat flon e w,
      get_coordinator s = (Ok coord, s0, t0) ->
      weather_service (world s0) coord = Ok tt ->
      py_float (VStr lat) = Ok flat ->
      py_float (VStr lon) = Ok flon ->
      perform (get_current_conditions coord flat flon) (world s0)
      = (Raise e, w) ->
      is_Exception e = true ->
      api_get_weather lat lon s
      = (Ok {| body := Json (VDict [("success", VBool false);
                                    ("error", VStr (exn_str e))]);
               status := 400 |},
         {| agent_manager := agent_manager s0; globals := globals s0;
            world := w; next_obj := next_obj s0;
            next_loop := S (next_loop s0) |},
         t0 ++ [EvNewLoop (next_loop s0); EvSetLoop (next_loop s0);
                EvRun (next_loop s0);
                EvCall (get_current_conditions coord flat flon);
                EvClose (next_loop s0)])) /\
  (* what except Exception does not catch leaves the handler *)
  (forall e s' t,
      api_get_weather_try lat lon s = (Raise e, s', t) ->
      is_Exception e = false ->
      api_get_weather lat lon s = (Raise e, s', t)) /\
  (* every answer is one of the two *)
  (forall resp s' t,
      api_get_weather lat lon s = (Ok resp, s', t) ->
      (status resp = 200%Z /\
       exists coord flat flon weather_data,
         py_float (VStr lat) = Ok flat /\
         py_float (VStr lon) = Ok flon /\
         In (EvCall (get_current_conditions coord flat flon)) t /\
         (exists w w',
             perform (get_current_conditions coord flat flon) w
             = (Ok weather_data, w')) /\
         body resp
         = Json
             (VDict
                [("success", VBool true);
                 ("weather",
                  VDict
                    [("temperature", temperature weather_data);
                     ("humidity", humidity weather_data);
                     ("wind_speed", wind_speed weather_data);
                     ("wind_direction", wind_direction weather_data);
                     ("pressure", pressure weather_data);
                     ("visibility", visibility weather_data);
                     ("conditions", conditions weather_data)])])) \/
      (status resp = 400%Z /\
       exists e,
         is_Exception e = true /\
         body resp = Json (VDict [("success", VBool false);
                                  ("error", VStr (exn_str e))]))) /\
  (forall e s' t,
      api_get_weather_try lat lon s = (Raise e, s', t) ->
      is_Exception e = true ->
      api_get_weather lat lon s
      = (Ok {| body := Json (VDict [("success", VBool false);
                                    ("error", VStr (exn_str e))]);
               status := 400 |}, s', t)) /\
  (forall e s' t,
      api_get_weather lat lon s = (Raise e, s', t) ->
      is_Exception e = false) /\
  (forall resp s' t,
      api_get_weather lat lon s = (Ok resp, s', t) ->
      (exists e, py_float (VStr lat) = Raise e) \/
      (exists e, py_float (VStr lon) = Raise e) ->
      status resp = 400%Z).
Proof.
  destruct (get_weather_paths lat lon s) as (Hok & Hfloat & Hcall & Hpass).
  destruct (get_weather_outcomes lat lon s) as (Hany & Hexc & Hesc & Hbad).
  repeat (split; [assumption|]). assumption.
Qed.

(** *** The optional agents *)

Ltac unfold_load :=
  unfold load_module, modify_globals, bind_policy_checker,
    flag_policy_checker, bind_citizen_assistant, flag_citizen_assistant,
    bind_document_agent, flag_document_agent, boot in *.

(** After the module is loaded, a failed import has left its class name
    [None] and its flag [False], and no agent is instantiated. *)
Lemma load_module_globals (imp : Imports) (w : W) (s : State)
    (t : list event) :
  load_module imp (boot w) = (Ok tt, s, t) ->
  agent_manager s = AgentManager.__init__ /\
  (forall e, import_PolicyComplianceChecker imp = Raise e ->
             PolicyComplianceChecker (globals s) = None /\
             policy_checker_available (globals s) = false) /\
  (forall e, import_VirtualCitizenAssistant imp = Raise e ->
             VirtualCitizenAssistant (globals s) = None /\
             citizen_assistant_available (globals s) = false) /\
  (forall e, import_DocumentEligibilityAgent imp = Raise e ->
             DocumentEligibilityAgent (globals s) = None /\
             document_agent_available (globals s) = false).
Proof.
  unfold_load; unfold_monad; exec.
  all: intros Hrun; inversion Hrun; subst; cbn.
  all: repeat split; intros; congruence.
Qed.

(** A request changes neither the globals nor the optional agents. *)
Lemma serve_frame_holds (rt : route) (s : State) :
  serve_frame s (state_of (serve rt s)).
Proof.
  unfold serve_frame.
  destruct rt as [p|a|]; [destruct p|destruct a|]; cbn [serve];
    unfold api_agents_status; unfold_pages; unfold_api; unfold_monad; exec.
  all: try session_loop; exec.
  all: try match goal with
           | H : same_frame _ _ /\ _ |- _ =>
               destruct H as ((?&?&?&?)&?&?)
           end.
  all: cbn in *; repeat split; congruence.
Qed.







(* ------------------------------------------------------------------ *)
(** *** More of what the code does *)

(** A [for] loop whose body emits only events that satisfy [P] emits only
    such events. *)
Lemma for_in_Forall {A B} (P : event -> Prop) (body : B -> A -> M B) :
  (forall acc x s,
      same_frame s (state_of (body acc x s)) /\
      Forall P (events_of (body acc x s))) ->
  forall items acc s,
    same_frame s (state_of (for_in items acc body s)) /\
    Forall P (events_of (for_in items acc body s)).
Proof.
  intros Hbody. induction items as [|x items IH]; intros acc s.
  - cbn. repeat split; auto.
  - specialize (Hbody acc x s). cbn [for_in]. unfold bind.
    destruct (body acc x s) as [[[acc'|e] s1] t1]; cbn in Hbody |- *.
    + specialize (IH acc' s1).
      destruct (for_in items acc' body s1) as [[r s2] t2]; cbn in IH |- *.
      destruct Hbody as ((?&?&?&?)&?), IH as ((?&?&?&?)&?).
      repeat split; try congruence. apply Forall_app; auto.
    + exact Hbody.
Qed.

Ltac all_events :=
  cbn in *;
  repeat first
    [ apply Forall_nil
    | apply Forall_cons; [ cbn; solve [ auto | congruence | tauto ] | ]
    | apply Forall_app; split
    | assumption ].

Ltac events_loop P :=
  match goal with
  | |- context [for_in ?items ?acc ?body ?s0] =>
      let H := fresh "Hloop" in
      assert (H : same_frame s0 (state_of (for_in items acc body s0)) /\
                  Forall P (events_of (for_in items acc body s0)));
      [ apply for_in_Forall; intros; unfold_monad; exec;
        repeat split; all_events
      | destruct (for_in items acc body s0) as [[? ?] ?] ]
  end.

(** X10.  No request initializes an agent, constructs an optional agent or
    prints: those happen at start-up only.  In particular a coordinator that
    [get_coordinator] creates on demand is used without its [initialize()]
    ever being called. *)
Theorem requests_never_initialize (rt : route) (s : State) :
  Forall (fun e => ~ startup_event e) (events_of (serve rt s)).
Proof.
  destruct rt as [p|a|]; [destruct p|destruct a|]; cbn [serve];
    unfold api_agents_status; unfold_pages; unfold_api; unfold_monad; exec.
  all: try events_loop (fun e => ~ startup_event e); exec.
  all: try match goal with
           | H : same_frame _ _ /\ _ |- _ => destruct H as ((?&?&?&?)&?)
           end.
  all: all_events.
Qed.

Ltac unfold_routes :=
  cbn [serve]; unfold api_agents_status; unfold_pages; unfold_api;
  unfold_monad.

(** X9.  The status and the ['success'] field of an API response agree:
    ['success'] is true exactly when the status is 200, a response with
    another status carries an ['error'] string, and each handler answers
    only with its own statuses (no 500 or 503 from [api_create_scenario] and
    [api_get_weather], no 503 from [api_agents_collaborate]). *)
Theorem status_matches_success (a : api) (s : State) (resp : response) :
  result_of (serve_api a s) = Ok resp ->
  In (status resp) (statuses a) /\
  success_of resp = Some (VBool (Z.eqb (status resp) 200)) /\
  (status resp <> 200%Z -> exists msg, error_of resp = Some (VStr msg)).
Proof.
  destruct a; cbn [statuses]; unfold_api; unfold_monad; exec.
  all: try events_loop (fun _ : event => True); exec.
  all: intros Hr; inversion Hr; subst; cbn.
  all: repeat split; auto 10; try (intros _; eexists; reflexivity);
       try (intros Hne; contradiction Hne; reflexivity).
Qed.

Lemma py_get_dict d key default :
  py_get (VDict d) key default = Ok (dict_get d key default).
Proof. reflexivity. Qed.

(** X1.  [api_create_scenario] validates before it acts: when the body cannot
    be read or the scenario cannot be built from it, the answer is 400 with
    the exception's text, and nothing has happened: no coordinator is
    created, no loop, no call.  A body without ['incident_type'] is
    answered with the [KeyError]'s text, the key in quotes. *)
Theorem invalid_scenario_has_no_effect (request : Request) (s : State) :
  (forall e,
      get_json request = Raise e \/
      (exists data, get_json request = Ok data /\
                    scenario_of_request request data = Raise e) ->
      is_Exception e = true ->
      api_create_scenario request s
      = (Ok {| body := Json (VDict [("success", VBool false);
                                    ("error", VStr (exn_str e))]);
               status := 400 |}, s, [])) /\
  (forall d,
      assoc "incident_type" d = None ->
      scenario_of_request request (VDict d)
      = Raise (KeyError "incident_type")).
Proof.
  split.
  - intros e [Hj|(data & Hj & Hsc)] He; unfold_api; unfold_monad;
      rewrite Hj; cbn; rewrite ?Hsc; cbn; rewrite He; reflexivity.
  - intros d Hnone. unfold scenario_of_request, rbind, py_get, py_getitem.
    rewrite Hnone. reflexivity.
Qed.

(** X2.  [api_get_weather] fetches the coordinator before it looks at its
    arguments: on a manager without a coordinator the request constructs
    one and stores it, whatever [lat] and [lon] are, also when they are no
    numbers and the answer is 400. *)
Theorem weather_creates_coordinator_first (lat lon : string) (s : State)
    (w : W) :
  AgentManager.coordinator (agent_manager s) = None ->
  perform (EmergencyResponseCoordinator__init (next_obj s)) (world s)
  = (Ok tt, w) ->
  AgentManager.coordinator
    (agent_manager (state_of (api_get_weather lat lon s)))
  = Some (next_obj s) /\
  exists rest,
    events_of (api_get_weather lat lon s)
    = EvCall (EmergencyResponseCoordinator__init (next_obj s))
      :: EvNewLoop (next_loop s) :: rest.
Proof.
  intros Hc Hnew. unfold_api; unfold_monad. rewrite Hc. cbn. rewrite Hnew.
  exec.
  all: split; [reflexivity | eexists; reflexivity].
Qed.

(** X3.  The three agent endpoints check their input before they open a
    loop.  With the agent available and a JSON object as body:
    [api_policy_analyze] without a true ['document_path'] and without a true
    ['policy_text'], [api_citizen_chat] without a true ['message'], and
    [api_document_process] without a true ['document_type'] or without a
    true ['document_content'] answer 400 with their message; nothing is
    called and nothing changes.  A missing key, [null], the empty string,
    [0] and [false] are all "not true". *)
Theorem missing_fields_rejected (request : Request) (s : State)
    (d : list (string * pyval)) :
  get_json request = Ok (VDict d) ->
  (AgentManager.policy_checker (agent_manager s) <> None ->
   truthy (dict_get d "document_path" VNone) = false ->
   truthy (dict_get d "policy_text" VNone) = false ->
   api_policy_analyze request s
   = (Ok {| body :=
              Json (VDict
                      [("success", VBool false);
                       ("error",
                        VStr "Either document_path or policy_text required")]);
            status := 400 |}, s, [])) /\
  (AgentManager.citizen_assistant (agent_manager s) <> None ->
   truthy (dict_get d "message" VNone) = false ->
   api_citizen_chat request s
   = (Ok {| body := Json (VDict [("success", VBool false);
                                 ("error", VStr "Message required")]);
            status := 400 |}, s, [])) /\
  (AgentManager.document_agent (agent_manager s) <> None ->
   truthy (dict_get d "document_type" VNone) = false \/
   truthy (dict_get d "document_content" VNone) = false ->
   api_document_process request s
   = (Ok {| body :=
              Json (VDict
                      [("success", VBool false);
                       ("error",
                        VStr "Document type and content required")]);
            status := 400 |}, s, [])).
Proof.
  intros Hj. repeat split.
  - intros Ha Hdp Hpt. unfold_api; unfold_monad.
    destruct (AgentManager.policy_checker (agent_manager s));
      [|contradiction]. cbn.
    rewrite Hj. cbn. rewrite !py_get_dict. cbn. rewrite Hdp, Hpt.
    reflexivity.
  - intros Ha Hm. unfold_api; unfold_monad.
    destruct (AgentManager.citizen_assistant (agent_manager s));
      [|contradiction]. cbn.
    rewrite Hj. cbn. rewrite !py_get_dict. cbn. rewrite Hm. reflexivity.
  - intros Ha Hm. unfold_api; unfold_monad.
    destruct (AgentManager.document_agent (agent_manager s));
      [|contradiction]. cbn.
    rewrite Hj. cbn. rewrite !py_get_dict. cbn.
    destruct Hm as [Hm|Hm]; rewrite Hm; cbn;
      [|rewrite orb_true_r]; reflexivity.
Qed.

(** X4.  [api_policy_analyze] prefers the document: with a true
    ['document_path'] it runs [analyze_document] on it and never looks at
    ['policy_text']; only without one does it run [analyze_policy_text].
    Either way it is the one call of the request, inside one loop session,
    and its result comes back as ['analysis']. *)
Theorem document_path_takes_precedence (request : Request) (s : State)
    (d : list (string * pyval)) (pc : obj) :
  get_json request = Ok (VDict d) ->
  AgentManager.policy_checker (agent_manager s) = Some pc ->
  truthy (dict_get d "document_path" VNone) = true \/
  truthy (dict_get d "policy_text" VNone) = true ->
  let l := next_loop s in
  let analysis : call pyval :=
    if truthy (dict_get d "document_path" VNone)
    then analyze_document pc (dict_get d "document_path" VNone)
    else analyze_policy_text pc (dict_get d "policy_text" VNone) in
  events_of (api_policy_analyze request s)
  = [EvNewLoop l; EvSetLoop l; EvRun l; EvCall analysis; EvClose l] /\
  result_of (api_policy_analyze request s)
  = match fst (perform analysis (world s)) with
    | Ok result =>
        Ok {| body := Json (VDict [("success", VBool true);
                                   ("analysis", result)]);
              status := 200 |}
    | Raise e =>
        if is_Exception e
        then Ok {| body := Json (VDict [("success", VBool false);
                                        ("error", VStr (exn_str e))]);
                   status := 500 |}
        else Raise e
    end.
Proof.
  intros Hj Hpc Htrue. cbv zeta. unfold_api; unfold_monad.
  rewrite Hpc. cbn. rewrite Hj. cbn. rewrite !py_get_dict. cbn.
  destruct (truthy (dict_get d "document_path" VNone)) eqn:Hdp; cbn.
  - destruct (perform _ _) as [[r|e] w]; cbn;
      [|destruct (is_Exception e)]; split; reflexivity.
  - destruct Htrue as [Ht|Ht]; [discriminate|]. rewrite Ht. cbn.
    destruct (perform _ _) as [[r|e] w]; cbn;
      [|destruct (is_Exception e)]; split; reflexivity.
Qed.

(** X5.  What the chat and document endpoints hand to their agent.  With the
    agent available and a JSON object as body, [api_citizen_chat] with a
    true ['message'] runs [chat(message)], and [api_document_process] with a
    true ['document_type'] and ['document_content'] runs
    [process_document(document_type, document_content, applicant_info)],
    where ['applicant_info'] defaults to the empty dict: the one call of the
    request, inside one loop session. *)
Theorem chat_and_document_calls (request : Request) (s : State)
    (d : list (string * pyval)) :
  get_json request = Ok (VDict d) ->
  let l := next_loop s in
  (forall a,
      AgentManager.citizen_assistant (agent_manager s) = Some a ->
      truthy (dict_get d "message" VNone) = true ->
      events_of (api_citizen_chat request s)
      = [EvNewLoop l; EvSetLoop l; EvRun l;
         EvCall (chat a (dict_get d "message" VNone)); EvClose l]) /\
  (forall a,
      AgentManager.document_agent (agent_manager s) = Some a ->
      truthy (dict_get d "document_type" VNone) = true ->
      truthy (dict_get d "document_content" VNone) = true ->
      events_of (api_document_process request s)
      = [EvNewLoop l; EvSetLoop l; EvRun l;
         EvCall (process_document a
                   (dict_get d "document_type" VNone)
                   (dict_get d "document_content" VNone)
                   (dict_get d "applicant_info" (VDict [])));
         EvClose l]).
Proof.
  intros Hj. cbv zeta. split.
  - intros a Ha Hm. unfold_api; unfold_monad.
    rewrite Ha. cbn. rewrite Hj. cbn. rewrite !py_get_dict. cbn.
    rewrite Hm. cbn.
    destruct (perform _ _) as [[r|e] w]; cbn;
      [|destruct (is_Exception e)]; reflexivity.
  - intros a Ha Ht Hc. unfold_api; unfold_monad.
    rewrite Ha. cbn. rewrite Hj. cbn. rewrite !py_get_dict. cbn.
    rewrite Ht, Hc. cbn.
    destruct (perform _ _) as [[r|e] w]; cbn;
      [|destruct (is_Exception e)]; reflexivity.
Qed.

Lemma serve_keeps_coordinator (rt : route) (s : State) (c : obj) :
  AgentManager.coordinator (agent_manager s) = Some c ->
  agent_manager (state_of (serve rt s)) = agent_manager s /\
  Forall (fun e => ~ constructor_event e) (events_of (serve rt s)).
Proof.
  intros Hc.
  destruct rt as [p|a|]; [destruct p|destruct a|]; unfold_routes;
    rewrite ?Hc; exec.
  all: try events_loop (fun e => ~ constructor_event e); exec.
  all: try match goal with
           | H : same_frame _ _ /\ _ |- _ => destruct H as ((?&?&?&?)&?)
           end.
  all: split; [ cbn in *; congruence | all_events ].
Qed.

(** X13.  Once the manager holds a coordinator, no request replaces it:
    any sequence of requests leaves the whole manager as it is and calls no
    constructor, so requests construct the coordinator at most once. *)
Theorem coordinator_constructed_once (rts : list route) (s : State)
    (c : obj) :
  AgentManager.coordinator (agent_manager s) = Some c ->
  agent_manager (fst (serve_all rts s)) = agent_manager s /\
  Forall (fun e => ~ constructor_event e) (snd (serve_all rts s)).
Proof.
  revert s. induction rts as [|rt rts IH]; intros s Hc; cbn.
  - split; constructor.
  - destruct (serve_keeps_coordinator rt s Hc) as (Hm & Hev).
    unfold state_of, events_of in *.
    destruct (serve rt s) as [[r s1] t1]; cbn in *.
    assert (Hc1 : AgentManager.coordinator (agent_manager s1) = Some c)
      by (rewrite Hm; exact Hc).
    destruct (IH s1 Hc1) as (Hm2 & Hev2).
    destruct (serve_all rts s1) as [s2 t2]; cbn in *.
    split; [congruence|]. apply Forall_app; split; assumption.
Qed.

(** X12.  A request changes nothing of the module's state but, possibly, the
    coordinator: the globals, the three optional agents and [initialized]
    are as before on every route, and on every route but
    [api_create_scenario] and [api_get_weather] the coordinator is too, and
    no constructor is called. *)
Theorem requests_change_only_coordinator (rt : route) (s : State) :
  serve_frame s (state_of (serve rt s)) /\
  (calls_get_coordinator rt = false ->
   agent_manager (state_of (serve rt s)) = agent_manager s /\
   Forall (fun e => ~ constructor_event e) (events_of (serve rt s))).
Proof.
  split; [apply serve_frame_holds|].
  destruct rt as [p|a|]; [destruct p|destruct a|]; cbn [calls_get_coordinator];
    try discriminate; intros _; unfold_routes; exec.
  all: try events_loop (fun e => ~ constructor_event e); exec.
  all: try match goal with
           | H : same_frame _ _ /\ _ |- _ => destruct H as ((?&?&?&?)&?)
           end.
  all: split; [ cbn in *; congruence | all_events ].
Qed.

(** X6.  [api_agents_collaborate] knows one task type.  For any other
    ['task_type'] (or none) it answers 400 naming the type it was given, and
    does nothing else, whichever agents are available. *)
Theorem unknown_task_rejected (request : Request) (s : State)
    (d : list (string * pyval)) :
  get_json request = Ok (VDict d) ->
  eq_str (dict_get d "task_type" VNone) "emergency_policy_check" = false ->
  api_agents_collaborate request s
  = (Ok {| body :=
             Json (VDict
                     [("success", VBool false);
                      ("error",
                       VStr ("Unknown task type: "
                             ++ py_str (dict_get d "task_type" VNone)))]);
           status := 400 |}, s, []).
Proof.
  intros Hj Ht. unfold_api; unfold_monad.
  rewrite Hj. cbn. rewrite !py_get_dict. cbn. rewrite Ht. reflexivity.
Qed.

(** X7.  [api_agents_collaborate] never answers 503.  Without a coordinator,
    and without a policy checker or without policy documents, the
    'emergency_policy_check' task succeeds with ['emergency_response'] null
    and ['policy_compliance'] empty: nothing is called, and the scenario
    data is not even read. *)
Theorem collaborate_without_agents (request : Request) (s : State)
    (d td : list (string * pyval)) :
  get_json request = Ok (VDict d) ->
  eq_str (dict_get d "task_type" VNone) "emergency_policy_check" = true ->
  dict_get d "task_data" (VDict []) = VDict td ->
  AgentManager.coordinator (agent_manager s) = None ->
  AgentManager.policy_checker (agent_manager s) = None \/
  truthy (dict_get td "policies" (VList [])) = false ->
  api_agents_collaborate request s
  = (Ok {| body :=
             Json
               (VDict
                  [("success", VBool true);
                   ("emergency_response", VNone);
                   ("policy_compliance", VList []);
                   ("collaboration_summary",
                    VStr "Emergency response plan generated with policy compliance validation")]);
           status := 200 |}, s, []).
Proof.
  intros Hj Ht Htd Hc Hp. unfold_api; unfold_monad.
  rewrite Hj. cbn. rewrite !py_get_dict. cbn. rewrite Ht, Htd. cbn.
  rewrite !py_get_dict. cbn. rewrite Hc. cbn.
  destruct Hp as [Hp|Hp]; rewrite Hp; cbn; [reflexivity|].
  rewrite andb_false_r. reflexivity.
Qed.

(** *** The policy loop *)

(** A loop that appends to its accumulator the answer for each item returns
    the accumulator followed by one answer per item, in order. *)
Lemma for_in_results {A} (R : A -> pyval -> Prop)
    (body : list pyval -> A -> M (list pyval)) :
  (forall acc x s r s' t,
      body acc x s = (Ok r, s', t) -> exists y, r = acc ++ [y] /\ R x y) ->
  forall items acc s r s' t,
    for_in items acc body s = (Ok r, s', t) ->
    exists ys, r = acc ++ ys /\ Forall2 R items ys.
Proof.
  intros Hbody. induction items as [|x items IH]; intros acc s r s' t.
  - cbn. intros H; inversion H; subst. exists []. rewrite app_nil_r. auto.
  - cbn [for_in]. unfold bind.
    destruct (body acc x s) as [[[acc'|e] s1] t1] eqn:Hb; [|discriminate].
    destruct (Hbody _ _ _ _ _ _ Hb) as (y & -> & Hy).
    destruct (for_in items (acc ++ [y]) body s1) as [[r2 s2] t2] eqn:Hf.
    intros H; inversion H; subst.
    destruct (IH _ _ _ _ _ Hf) as (ys & -> & Hys).
    exists (y :: ys). rewrite <- app_assoc. auto.
Qed.

Ltac results_loop pc :=
  match goal with
  | |- context [for_in ?items ?acc ?body ?s0] =>
      let H := fresh "Hres" in
      assert (H : forall r s' t,
                 for_in items acc body s0 = (Ok r, s', t) ->
                 exists ys, r = acc ++ ys /\ Forall2 (analysed pc) items ys);
      [ apply for_in_results;
        let Hb := fresh in
        intros ? ? ? ? ? ?; unfold_monad; exec; intros Hb; inversion Hb;
        subst; eexists; split; [reflexivity|]; do 2 eexists; eassumption
      | destruct (for_in items acc body s0) as [[[?|?] ?] ?] eqn:? ]
  end.

(** X8.  When the 'emergency_policy_check' task succeeds, its
    ['policy_compliance'] is the list of what [analyze_policy_text] answered
    for the policy documents: one result per document, in the order of the
    documents; it is empty when there is no policy checker. *)
Theorem collaborate_policy_results (request : Request) (s s' : State)
    (resp : response) (t : list event) :
  api_agents_collaborate request s = (Ok resp, s', t) ->
  status resp = 200%Z ->
  exists results,
    field_of "policy_compliance" resp = Some (VList results) /\
    match AgentManager.policy_checker (agent_manager s) with
    | Some pc => Forall2 (analysed pc) (policy_documents_of request) results
    | None => results = []
    end.
Proof.
  unfold_api; unfold_monad; exec.
  all: try match goal with
           | H : AgentManager.policy_checker _ = Some ?pc |- _ =>
               results_loop pc
           end; exec.
  all: intros Hr; inversion Hr; subst; cbn; intros Hs; try discriminate.
  all: eexists; split; [reflexivity|].
  all: try reflexivity.
  all: known_documents.
  all: try match goal with
           | H : forall r s' t, _ = _ -> _ |- _ =>
               destruct (H _ _ _ eq_refl) as (ys & -> & Hys); exact Hys
           end.
  all: try (rewrite falsy_has_no_items by assumption; constructor).

Qed.

(** *** Start-up *)

Lemma initialize_fallback_optional (s : State) :
  let s' := state_of (initialize_fallback s) in
  AgentManager.policy_checker (agent_manager s')
  = AgentManager.policy_checker (agent_manager s) /\
  AgentManager.citizen_assistant (agent_manager s')
  = AgentManager.citizen_assistant (agent_manager s) /\
  AgentManager.document_agent (agent_manager s')
  = AgentManager.document_agent (agent_manager s).
Proof.
  unfold_initialize; unfold_monad; exec; auto.
Qed.

(** X14.  The fallback of [initialize] does not undo the failed attempt: the
    optional agents the full path had assigned before it raised stay on the
    manager (a policy checker whose [initialize()] raised is still
    [manager.policy_checker]), although the fallback initializes the
    coordinator only. *)
Theorem fallback_keeps_assigned_agents (s s1 : State) (e : exn)
    (t1 : list event) :
  initialize_all s = (Raise e, s1, t1) ->
  is_Exception e = true ->
  AgentManager.policy_checker (agent_manager (state_of (initialize s)))
  = AgentManager.policy_checker (agent_manager s1) /\
  AgentManager.citizen_assistant (agent_manager (state_of (initialize s)))
  = AgentManager.citizen_assistant (agent_manager s1) /\
  AgentManager.document_agent (agent_manager (state_of (initialize s)))
  = AgentManager.document_agent (agent_manager s1).
Proof.
  intros Hall He. rewrite initialize_cases, Hall, He.
  pose proof (initialize_fallback_optional s1) as Hfb. cbv zeta in Hfb.
  unfold state_of in *.
  destruct (initialize_fallback s1) as [[[b|e2] s2] t2]; cbn in *;
    [exact Hfb|].
  destruct (is_Exception e2); exact Hfb.
Qed.

(** X15.  When the full path of [initialize] completes, the manager holds a
    new coordinator, each optional agent exactly if its class was imported
    and its flag is set (or it was there before), and [initialized] is
    true. *)
Theorem initialize_all_instantiates_imported (s s' : State) (b : bool)
    (t : list event) :
  initialize_all s = (Ok b, s', t) ->
  b = true /\
  globals s' = globals s /\
  AgentManager.coordinator (agent_manager s') = Some (next_obj s) /\
  is_not_None (AgentManager.policy_checker (agent_manager s'))
  = (truthy_obj (PolicyComplianceChecker (globals s))
     && policy_checker_available (globals s))
    || is_not_None (AgentManager.policy_checker (agent_manager s)) /\
  is_not_None (AgentManager.citizen_assistant (agent_manager s'))
  = (truthy_obj (VirtualCitizenAssistant (globals s))
     && citizen_assistant_available (globals s))
    || is_not_None (AgentManager.citizen_assistant (agent_manager s)) /\
  is_not_None (AgentManager.document_agent (agent_manager s'))
  = (truthy_obj (DocumentEligibilityAgent (globals s))
     && document_agent_available (globals s))
    || is_not_None (AgentManager.document_agent (agent_manager s)) /\
  AgentManager.initialized (agent_manager s') = true.
Proof.
  unfold_initialize; unfold_monad; exec.
  all: intros Hr; inversion Hr; subst; cbn.
  all: repeat match goal with
              | H : _ && _ = _ |- _ => rewrite H
              end; cbn.
  all: repeat split; reflexivity.
Qed.








(** X18.  The agents hub and the status endpoint agree: for each of the four
    agents, the boolean [agents_hub] hands to its template is the
    ['available'] field [/api/agents/status] reports in the same state. *)
Theorem hub_agrees_with_status (s : State) :
  exists agent_status report,
    events_of (agents_hub s)
    = [EvCall (render_template "agents_hub.html"
                 [("agent_status", VDict agent_status)])] /\
    result_of (api_agents_status s)
    = Ok {| body := Json (VDict report); status := 200 |} /\
    map fst agent_status
    = ["emergency_response"; "policy_compliance"; "citizen_assistant";
       "document_eligibility"] /\
    (forall key available,
        assoc key agent_status = Some available ->
        exists entry,
          assoc key report = Some (VDict entry) /\
          assoc "available" entry = Some available).
Proof.
  unfold agents_hub, api_agents_status, agent_entry. unfold_monad. cbn.
  destruct (perform _ _) as [[page|e] w]; cbn.
  all: do 2 eexists; repeat split.
  all: intros key available; cbn.
  all: destruct (String.eqb key "emergency_response");
       [ intros H; inversion H; eexists; split; reflexivity | ].
  all: destruct (String.eqb key "policy_compliance");
       [ intros H; inversion H; eexists; split; reflexivity | ].
  all: destruct (String.eqb key "citizen_assistant");
       [ intros H; inversion H; eexists; split; reflexivity | ].
  all: destruct (String.eqb key "document_eligibility");
       [ intros H; inversion H; eexists; split; reflexivity | ].
  all: discriminate.
Qed.

(** X19.  A page route has no [except] clause: it answers 200 with the page
    its template rendered, and an exception of [render_template], of any
    kind, leaves the handler as it was raised. *)
Theorem page_renders_or_raises (p : page) (s : State) :
  let template := fst (page_template p (agent_manager s)) in
  let context := snd (page_template p (agent_manager s)) in
  serve_page p s
  = match perform (render_template template context) (world s) with
    | (Ok html, w) =>
        (Ok {| body := Html html; status := 200 |}, with_world s w,
         [EvCall (render_template template context)])
    | (Raise e, w) =>
        (Raise e, with_world s w,
         [EvCall (render_template template context)])
    end.
Proof.
  destruct p; unfold_pages; unfold_monad; cbn;
    destruct (perform _ _) as [[html|e] w]; reflexivity.
Qed.

(** X20.  When [initialize] returns [True], the manager holds a coordinator
    whose [initialize()] was awaited during the call and returned: the one
    of the full path, or the one the fallback constructed. *)
Theorem initialize_true_means_coordinator_ready (s s' : State)
    (t : list event) :
  initialize s = (Ok true, s', t) ->
  coordinator_ready s' t /\
  AgentManager.initialized (agent_manager s') = true.
Proof.
  rewrite initialize_cases.
  pose proof (initialize_all_outcome s) as Ho.
  destruct (initialize_all s) as [[[b|e] s1] t1] eqn:Hall;
    unfold result_of, state_of in Ho; cbn in Ho.
  - intros Hr; inversion Hr; subst. split; [|apply Ho].
    exact (initialize_all_ready s Hall).
  - destruct (is_Exception e); [|discriminate].
    pose proof (initialize_fallback_outcome s1) as Hf.
    destruct (initialize_fallback s1) as [[[b|e2] s2] t2] eqn:Hfb;
      unfold result_of, state_of in Hf; cbn in Hf.
    + intros Hr; inversion Hr; subst. split; [|apply Hf].
      destruct (initialize_fallback_ready s1 Hfb) as (c & w & w' & Hc & Hin & Hp).
      exists c, w, w'. repeat split; [exact Hc| |exact Hp].
      apply in_or_app. right. right. exact Hin.
    + destruct (is_Exception e2); discriminate.
Qed.

Lemma initialize_all_operational (s : State) :
  operational s -> operational (state_of (initialize_all s)).
Proof.
  unfold operational. unfold_initialize; unfold_monad; exec.
  all: intros Hinv; cbn in *; try discriminate; auto.
Qed.

Lemma initialize_fallback_operational (s : State) :
  operational s -> operational (state_of (initialize_fallback s)).
Proof.
  unfold operational. unfold_initialize; unfold_monad; exec.
  all: intros Hinv; cbn in *; try discriminate; auto.
Qed.

Lemma initialize_operational (s : State) :
  operational s -> operational (state_of (initialize s)).
Proof.
  intros Hinv. rewrite initialize_cases.
  pose proof (initialize_all_operational Hinv) as Hall.
  unfold state_of in *.
  destruct (initialize_all s) as [[[b|e] s1] t1]; cbn in *; [exact Hall|].
  destruct (is_Exception e); [|exact Hall].
  pose proof (initialize_fallback_operational Hall) as Hfb.
  unfold state_of in *.
  destruct (initialize_fallback s1) as [[[b|e2] s2] t2]; cbn in *;
    [exact Hfb|].
  destruct (is_Exception e2); exact Hfb.
Qed.

Lemma main_operational (s : State) :
  operational s -> operational (state_of (main s)).
Proof.
  intros Hinv. unfold main. unfold_monad.
  match goal with
  | |- context [initialize ?s0] =>
      assert (H0 : operational s0) by exact Hinv;
      pose proof (initialize_operational H0) as Hinit;
      destruct (initialize s0) as [[[[]|e] s1] t1]
  end.
  all: unfold operational, state_of in *;
       cbn in *; try destruct (is_Exception e); cbn; exact Hinit.
Qed.

Lemma serve_operational (rt : route) (s : State) :
  operational s -> operational (state_of (serve rt s)).
Proof.
  unfold operational. intros Hinv Hinit.
  destruct (serve_frame_holds rt s) as (_ & _ & _ & _ & Hi).
  rewrite Hi in Hinit. specialize (Hinv Hinit).
  destruct (AgentManager.coordinator (agent_manager s)) as [c|] eqn:Hc;
    [|contradiction].
  destruct (serve_keeps_coordinator rt s Hc) as (Hm & _).
  rewrite Hm, Hc. discriminate.
Qed.

(** X11.  In every state the application reaches, a manager that is
    [initialized] holds a coordinator: [/api/agents/status] never reports
    ['system_status'] 'operational' with the emergency response agent
    'unavailable'. *)
Theorem operational_has_coordinator (imp : Imports) (s : State) :
  reachable imp s ->
  AgentManager.initialized (agent_manager s) = true ->
  AgentManager.coordinator (agent_manager s) <> None.
Proof.
  intros Hreach. change (operational s).
  induction Hreach as [w s t Hload|s r s' t _ IH Hmain|s rt r s' t _ IH Hs].
  - destruct (load_module_globals _ _ Hload) as (Hm & _).
    unfold operational. rewrite Hm. discriminate.
  - pose proof (main_operational IH) as H. unfold state_of in H.
    rewrite Hmain in H. exact H.
  - pose proof (serve_operational rt IH) as H. unfold state_of in H.
    rewrite Hs in H. exact H.
Qed.

End Properties.

(** A run, by its three components *)
Lemma run_eq {Mo : Models} {Wd : World} {A}
    (x : result A * State * list event) (r : result A) :
  result_of x = r -> x = (r, state_of x, events_of x).
Proof. destruct x as [[r' s] t]; cbn; intros ->; reflexivity. Qed.


(** C2 as stated fails: with a coordinator, a policy checker and two policy
    documents, [api_agents_collaborate] creates two loops in one request and
    runs two coroutines on the second. *)
Lemma one_loop_one_coroutine_fails :
  let t := events_of
             (api_agents_collaborate (Wd := Demo.scripted)
                (Demo.post Demo.collaborate_request)
                (Demo.state Demo.both_agents [])) in
  created t = [0; 1] /\ runs_on 1 t = 2 /\ one_loop_one_coroutine t = false.
Proof. vm_compute. repeat split. Qed.

(** C6 as stated fails: [get_current_conditions] is cancelled, and the
    [asyncio.CancelledError] leaves [api_get_weather] after the loop is
    closed, without any response. *)
Lemma weather_exception_escapes :
  let run := api_get_weather (Wd := Demo.scripted) "40" "12"
               (Demo.state AgentManager.__init__
                  [None; Some Demo.CancelledError]) in
  result_of run = Raise Demo.CancelledError /\
  events_of run
  = [EvCall (EmergencyResponseCoordinator__init 10);
     EvNewLoop 0; EvSetLoop 0; EvRun 0;
     EvCall (get_current_conditions 10 (Demo.double 40) (Demo.double 12));
     EvClose 0].
Proof. split; reflexivity. Qed.

(** C8 as stated fails: an [asyncio.CancelledError] raised by the awaited
    coroutine leaves [api_create_scenario] and [api_citizen_chat], after
    their loops are closed. *)
Lemma exception_escapes_handler :
  let scenario_run :=
    api_create_scenario (Wd := Demo.scripted)
      (Demo.post Demo.scenario_request)
      (Demo.state AgentManager.__init__ [None; Some Demo.CancelledError]) in
  let chat_run :=
    api_citizen_chat (Wd := Demo.scripted)
      (Demo.post (VDict Demo.chat_fields))
      (Demo.state Demo.all_agents [Some Demo.CancelledError]) in
  result_of scenario_run = Raise Demo.CancelledError /\
  open_loops [] (events_of scenario_run) = [] /\
  result_of chat_run = Raise Demo.CancelledError /\
  events_of chat_run
  = [EvNewLoop 0; EvSetLoop 0; EvRun 0; EvCall (chat 3 (VStr "hi"));
     EvClose 0].
Proof. repeat split. Qed.

(** C10 as stated fails: [coordinator.initialize()] is cancelled in the full
    path, and [initialize] raises without falling back; no second
    coordinator is constructed. *)
Lemma initialize_without_fallback :
  let run := initialize (Wd := Demo.scripted)
               (Demo.state AgentManager.__init__
                  [None; Some Demo.CancelledError]) in
  result_of run = Raise Demo.CancelledError /\
  events_of run
  = [EvCall (EmergencyResponseCoordinator__init 10);
     EvCall (coordinator_initialize 10)] /\
  AgentManager.initialized (agent_manager (state_of run)) = false.
Proof. repeat split. Qed.

(** A latitude and a longitude that parse: the service is called with them
    and its seven fields come back with status 200.  A latitude that is no
    number: the [ValueError] of [float] comes back as a 400 response and the
    service is not called. *)
Lemma get_weather_spec_witness :
  let s := Demo.state AgentManager.__init__ [] in
  (result_of (api_get_weather (Wd := Demo.scripted) "40" "12" s)
   = Ok {| body :=
             Json
               (VDict
                  [("success", VBool true);
                   ("weather",
                    VDict
                      [("temperature", VInt 20); ("humidity", VInt 50);
                       ("wind_speed", VInt 10); ("wind_direction", VStr "N");
                       ("pressure", VInt 1013); ("visibility", VInt 10);
                       ("conditions", VStr "Clear")])]);
           status := 200 |} /\
   events_of (api_get_weather (Wd := Demo.scripted) "40" "12" s)
   = [EvCall (EmergencyResponseCoordinator__init 10);
      EvNewLoop 0; EvSetLoop 0; EvRun 0;
      EvCall (get_current_conditions 10 (Demo.double 40) (Demo.double 12));
      EvClose 0]) /\
  (result_of (api_get_weather (Wd := Demo.scripted) "abc" "12" s)
   = Ok {| body :=
             Json
               (VDict
                  [("success", VBool false);
                   ("error",
                    VStr "could not convert string to float: 'abc'")]);
           status := 400 |} /\
   events_of (api_get_weather (Wd := Demo.scripted) "abc" "12" s)
   = [EvCall (EmergencyResponseCoordinator__init 10);
      EvNewLoop 0; EvSetLoop 0; EvClose 0]).
Proof.
  intros s.
  pose proof (proj1 (get_weather_spec (Wd := Demo.scripted) "40" "12" s)
                10 _ _ (Demo.double 40) (Demo.double 12) Demo.weather []
                (run_eq (get_coordinator s) (r := Ok 10) eq_refl)
                eq_refl eq_refl eq_refl eq_refl) as Hok.
  pose proof (proj1 (proj2
                (get_weather_spec (Wd := Demo.scripted) "abc" "12" s))
                10 _ _
                (Demo.ValueError "could not convert string to float: 'abc'")
                (run_eq (get_coordinator s) (r := Ok 10) eq_refl)
                eq_refl (or_introl eq_refl) eq_refl) as Hbad.
  split.
  - rewrite Hok. split; reflexivity.
  - rewrite Hbad. split; reflexivity.
Defined.

(** The full path fails at [coordinator.initialize()] with an [Exception]:
    [initialize] prints the error, the fallback constructs a second
    coordinator and awaits its [initialize()], and [initialize] returns
    [True] with that coordinator on the manager. *)
Lemma initialize_recovery_witness :
  let s := Demo.state AgentManager.__init__ [None; Some Demo.boom] in
  result_of (initialize (Wd := Demo.scripted) s) = Ok true /\
  events_of (initialize (Wd := Demo.scripted) s)
  = [EvCall (EmergencyResponseCoordinator__init 10);
     EvCall (coordinator_initialize 10);
     EvPrint "Error initializing agents: boom";
     EvCall (EmergencyResponseCoordinator__init 11);
     EvCall (coordinator_initialize 11);
     EvPrint "✓ Emergency Response Coordinator initialized (fallback mode)"] /\
  AgentManager.coordinator
    (agent_manager (state_of (initialize (Wd := Demo.scripted) s)))
  = Some 11 /\
  AgentManager.initialized
    (agent_manager (state_of (initialize (Wd := Demo.scripted) s))) = true.
Proof.
  intros s.
  destruct (proj1 (proj2 (proj2 (proj2 (proj2 (proj2 (proj2
              (initialize_recovery (Wd := Demo.scripted) s)))))))
              Demo.boom _ _
              (run_eq (initialize_all s) (r := Raise Demo.boom) eq_refl)
              eq_refl) as (Hr & Hs & He).
  rewrite Hr, Hs, He. repeat split.
Defined.

(** On a fresh manager the first call constructs object 10; the second call
    returns it again and constructs nothing. *)
Lemma get_coordinator_lazy_witness :
  let s := Demo.state AgentManager.__init__ [] in
  let s1 := state_of (get_coordinator (Wd := Demo.scripted) s) in
  result_of (get_coordinator s) = Ok 10 /\
  get_coordinator s1 = (Ok 10, s1, []).
Proof.
  split; [reflexivity|].
  apply (proj2 (get_coordinator_lazy (Wd := Demo.scripted)
                  (Demo.state AgentManager.__init__ [])) 10 _
           [EvCall (EmergencyResponseCoordinator__init 10)]).
  reflexivity.
Defined.

(** A request body without ['incident_type']: the [KeyError] raised inside
    [api_create_scenario] comes back as a 400 response. *)
Lemma exceptions_become_responses_witness :
  let s := Demo.state AgentManager.__init__ [] in
  let request := Demo.post (VDict [("location", VStr "Downtown")]) in
  api_create_scenario (Wd := Demo.scripted) request s
  = (Ok {| body := Json (VDict [("success", VBool false);
                                ("error", VStr "'incident_type'")]);
           status := 400 |}, s, []).
Proof.
  apply (proj1 (exceptions_become_responses (Wd := Demo.scripted)
                  (Api_create_scenario
                     (Demo.post (VDict [("location", VStr "Downtown")])))
                  (Demo.state AgentManager.__init__ []))
           (KeyError "incident_type")); reflexivity.
Defined.



(* ================================================================== *)
(** ** Runs on the concrete world *)
(* ================================================================== *)

(** The awaited [chat] raises: the loop is closed all the same, and the
    exception comes back as a 500 response. *)
Example chat_raises :
  let run := api_citizen_chat (Wd := Demo.scripted)
               (Demo.post (VDict [("message", VStr "hi")]))
               (Demo.state (AgentManager.mk None None (Some 3) None true)
                  [Some Demo.boom]) in
  result_of run
  = Ok {| body := Json (VDict [("success", VBool false);
                               ("error", VStr "boom")]);
          status := 500 |} /\
  events_of run
  = [EvNewLoop 0; EvSetLoop 0; EvRun 0; EvCall (chat 3 (VStr "hi"));
     EvClose 0].
Proof. split; reflexivity. Qed.

(** A latitude that is no number: [api_get_weather] creates its loop and
    closes it without running anything on it. *)
Example weather_without_run :
  let t := events_of
             (api_get_weather (Wd := Demo.scripted) "abc" "12"
                (Demo.state AgentManager.__init__ [])) in
  created t = [0] /\ runs_on 0 t = 0 /\ open_loops [] t = [].
Proof. repeat split. Qed.

(** An exception that [except Exception] does not catch goes through the
    handler, after the loop is closed. *)
Example interrupt_escapes :
  let run := api_citizen_chat (Wd := Demo.scripted)
               (Demo.post (VDict [("message", VStr "hi")]))
               (Demo.state (AgentManager.mk None None (Some 3) None true)
                  [Some (mk_exn false "KeyboardInterrupt")]) in
  result_of run = Raise (mk_exn false "KeyboardInterrupt") /\
  open_loops [] (events_of run) = [].
Proof. repeat split. Qed.

(** What the reading of sessions refuses: a second loop created while one is
    open, a [run_until_complete] that runs nothing, a coroutine run outside
    a loop.  Two sessions one after the other are read as such. *)
Example sessions_refuse_two_open_loops :
  sessions (Mo := Demo.models)
    [EvNewLoop 0; EvSetLoop 0; EvNewLoop 1; EvSetLoop 1; EvClose 1;
     EvClose 0] = None /\
  sessions (Mo := Demo.models)
    [EvNewLoop 0; EvSetLoop 0; EvRun 0; EvClose 0] = None /\
  sessions (Mo := Demo.models) [EvCall (chat 3 (VStr "hi"))] = None /\
  sessions (Mo := Demo.models)
    [EvNewLoop 0; EvSetLoop 0; EvClose 0; EvNewLoop 1; EvSetLoop 1;
     EvClose 1] = Some [(0, []); (1, [])].
Proof. repeat split. Qed.

(** The sessions of the collaboration run of two policies: one coroutine on
    loop 0, two on loop 1. *)
Example collaborate_sessions :
  option_map (map (fun session => (fst session, length (snd session))))
    (sessions (events_of Demo.collaborate_run))
  = Some [(0, 1); (1, 2)].
Proof. reflexivity. Qed.

(** Both stages of [initialize] fail: it returns [False] and the manager
    stays uninitialized. *)
Example initialize_fails_twice :
  let run := initialize (Wd := Demo.scripted)
               (Demo.state AgentManager.__init__
                  [Some Demo.boom; Some Demo.boom]) in
  result_of run = Ok false /\
  AgentManager.initialized (agent_manager (state_of run)) = false /\
  AgentManager.coordinator (agent_manager (state_of run)) = None.
Proof. repeat split. Qed.

(** The status report of a manager that holds a coordinator only *)
Example status_of_coordinator_only :
  result_of
    (api_agents_status (Wd := Demo.scripted)
       (Demo.state (AgentManager.mk (Some 1) None None None true) []))
  = Ok {| body :=
            Json
              (VDict
                 [("emergency_response",
                   VDict [("available", VBool true);
                          ("status", VStr "active")]);
                  ("policy_compliance",
                   VDict [("available", VBool false);
                          ("status", VStr "unavailable")]);
                  ("citizen_assistant",
                   VDict [("available", VBool false);
                          ("status", VStr "unavailable")]);
                  ("document_eligibility",
                   VDict [("available", VBool false);
                          ("status", VStr "unavailable")]);
                  ("system_status", VStr "operational")]);
          status := 200 |}.
Proof. reflexivity. Qed.

(* ================================================================== *)
(** ** Runs that meet the hypotheses of the further properties *)
(* ================================================================== *)

(** An empty body: 400 with the [KeyError] of ['incident_type'], and
    nothing has happened. *)
Lemma invalid_scenario_has_no_effect_witness :
  api_create_scenario (Wd := Demo.scripted) (Demo.post (VDict []))
    (Demo.state AgentManager.__init__ [])
  = (Ok {| body := Json (VDict [("success", VBool false);
                                ("error", VStr "'incident_type'")]);
           status := 400 |}, Demo.state AgentManager.__init__ [], []).
Proof.
  apply (proj1 (invalid_scenario_has_no_effect (Wd := Demo.scripted)
                  (Demo.post (VDict []))
                  (Demo.state AgentManager.__init__ []))
           (KeyError "incident_type")).
  - right. exists (VDict []). split; reflexivity.
  - reflexivity.
Defined.

(** A latitude that is no number, on a manager without a coordinator: the
    coordinator is there afterwards. *)
Lemma weather_creates_coordinator_first_witness :
  AgentManager.coordinator
    (agent_manager
       (state_of
          (api_get_weather (Wd := Demo.scripted) "abc" "12"
             (Demo.state AgentManager.__init__ []))))
  = Some 10.
Proof.
  apply (proj1 (weather_creates_coordinator_first (Wd := Demo.scripted)
                  "abc" "12" (Demo.state AgentManager.__init__ [])
                  (w := Demo.no_script) eq_refl eq_refl)).
Defined.

(** An empty JSON object for the policy endpoint *)
Lemma missing_fields_rejected_witness :
  api_policy_analyze (Wd := Demo.scripted) (Demo.post (VDict []))
    (Demo.state Demo.all_agents [])
  = (Ok {| body :=
             Json (VDict
                     [("success", VBool false);
                      ("error",
                       VStr "Either document_path or policy_text required")]);
           status := 400 |}, Demo.state Demo.all_agents [], []).
Proof.
  apply (proj1 (missing_fields_rejected (Wd := Demo.scripted)
                  (Demo.post (VDict [])) (Demo.state Demo.all_agents [])
                  (d := []) eq_refl)).
  - intros H. discriminate H.
  - reflexivity.
  - reflexivity.
Defined.

(** A document and a text: the document is analysed. *)
Lemma document_path_takes_precedence_witness :
  events_of
    (api_policy_analyze (Wd := Demo.scripted)
       (Demo.post (VDict Demo.policy_fields))
       (Demo.state Demo.all_agents []))
  = [EvNewLoop 0; EvSetLoop 0; EvRun 0;
     EvCall (analyze_document 2 (VStr "policy.pdf")); EvClose 0].
Proof.
  apply (proj1 (document_path_takes_precedence (Wd := Demo.scripted)
                  (Demo.post (VDict Demo.policy_fields))
                  (Demo.state Demo.all_agents [])
                  (d := Demo.policy_fields) (pc := 2)
                  eq_refl eq_refl (or_introl eq_refl))).
Defined.

Lemma chat_and_document_calls_witness :
  events_of
    (api_citizen_chat (Wd := Demo.scripted)
       (Demo.post (VDict Demo.chat_fields))
       (Demo.state Demo.all_agents []))
  = [EvNewLoop 0; EvSetLoop 0; EvRun 0; EvCall (chat 3 (VStr "hi"));
     EvClose 0].
Proof.
  apply (proj1 (chat_and_document_calls (Wd := Demo.scripted)
                  (Demo.post (VDict Demo.chat_fields))
                  (Demo.state Demo.all_agents [])
                  (d := Demo.chat_fields) eq_refl) 3);
    reflexivity.
Defined.

Lemma unknown_task_rejected_witness :
  api_agents_collaborate (Wd := Demo.scripted)
    (Demo.post (VDict Demo.other_task)) (Demo.state Demo.all_agents [])
  = (Ok {| body :=
             Json (VDict [("success", VBool false);
                          ("error", VStr "Unknown task type: translate")]);
           status := 400 |}, Demo.state Demo.all_agents [], []).
Proof.
  apply (unknown_task_rejected (Wd := Demo.scripted)
           (Demo.post (VDict Demo.other_task))
           (Demo.state Demo.all_agents []) (d := Demo.other_task));
    reflexivity.
Defined.

Lemma collaborate_without_agents_witness :
  result_of
    (api_agents_collaborate (Wd := Demo.scripted)
       (Demo.post (VDict Demo.policy_task))
       (Demo.state AgentManager.__init__ []))
  = Ok {| body :=
            Json
              (VDict
                 [("success", VBool true);
                  ("emergency_response", VNone);
                  ("policy_compliance", VList []);
                  ("collaboration_summary",
                   VStr "Emergency response plan generated with policy compliance validation")]);
          status := 200 |}.
Proof.
  rewrite (collaborate_without_agents (Wd := Demo.scripted)
             (Demo.post (VDict Demo.policy_task))
             (Demo.state AgentManager.__init__ [])
             (d := Demo.policy_task) (td := [])
             eq_refl eq_refl eq_refl eq_refl (or_introl eq_refl)).
  reflexivity.
Defined.

(** Two policies: two results, in order. *)
Lemma collaborate_policy_results_witness :
  exists results,
    field_of "policy_compliance"
      (Demo.response_of (result_of Demo.collaborate_run))
    = Some (VList results) /\
    Forall2 (analysed (Wd := Demo.scripted) 2)
      [VStr "policy A"; VStr "policy B"] results.
Proof.
  destruct (collaborate_policy_results (Wd := Demo.scripted)
              (Demo.post Demo.collaborate_request)
              (Demo.state Demo.both_agents [])
              (s' := state_of Demo.collaborate_run)
              (resp := Demo.response_of (result_of Demo.collaborate_run))
              (t := events_of Demo.collaborate_run) eq_refl eq_refl)
    as (results & Hfield & Hres).
  exists results. split; [exact Hfield | exact Hres].
Defined.

Lemma status_matches_success_witness :
  In (status (Demo.response_of (result_of Demo.scenario_run))) [200; 400]%Z /\
  success_of (Demo.response_of (result_of Demo.scenario_run))
  = Some (VBool true).
Proof.
  destruct (status_matches_success (Wd := Demo.scripted)
              (Api_create_scenario (Demo.post Demo.scenario_request))
              (Demo.state AgentManager.__init__ [])
              (resp := Demo.response_of (result_of Demo.scenario_run))
              eq_refl)
    as (Hin & Hsuccess & _).
  split; [exact Hin | exact Hsuccess].
Defined.

Lemma coordinator_constructed_once_witness :
  agent_manager
    (fst (serve_all (Wd := Demo.scripted) Demo.three_requests
            (Demo.state Demo.both_agents [])))
  = Demo.both_agents.
Proof.
  apply (proj1 (coordinator_constructed_once (Wd := Demo.scripted)
                  Demo.three_requests (Demo.state Demo.both_agents [])
                  (c := 1) eq_refl)).
Defined.

(** [policy_checker.initialize()] raises, the fallback completes: the
    policy checker that was constructed is still on the manager. *)
Lemma fallback_keeps_assigned_agents_witness :
  result_of (initialize (Wd := Demo.scripted) Demo.policy_fails) = Ok true /\
  AgentManager.policy_checker
    (agent_manager (state_of (initialize (Wd := Demo.scripted)
                                Demo.policy_fails)))
  = Some 11.
Proof.
  split; [reflexivity|].
  destruct (fallback_keeps_assigned_agents (Wd := Demo.scripted)
              Demo.policy_fails
              (run_eq (initialize_all (Wd := Demo.scripted) Demo.policy_fails)
                 (r := Raise Demo.boom) eq_refl)
              eq_refl) as (Hp & _).
  exact Hp.
Defined.

Lemma initialize_all_instantiates_imported_witness :
  is_not_None
    (AgentManager.policy_checker (agent_manager (state_of Demo.full_start)))
  = true /\
  is_not_None
    (AgentManager.document_agent (agent_manager (state_of Demo.full_start)))
  = true.
Proof.
  destruct (initialize_all_instantiates_imported (Wd := Demo.scripted)
              (Demo.started [])
              (run_eq (initialize_all (Wd := Demo.scripted) (Demo.started []))
                 (r := Ok true) eq_refl))
    as (_ & _ & _ & Hp & _ & Hd & _).
  split; [exact Hp | exact Hd].
Defined.

(** The first [coordinator.initialize()] raises, the fallback's returns. *)
Lemma initialize_true_means_coordinator_ready_witness :
  coordinator_ready (Wd := Demo.scripted) (state_of Demo.retried)
    (events_of Demo.retried).
Proof.
  apply (proj1 (initialize_true_means_coordinator_ready
                  (Wd := Demo.scripted)
                  (Demo.state AgentManager.__init__ [None; Some Demo.boom])
                  (run_eq Demo.retried (r := Ok true) eq_refl))).
Defined.

(** After the module is loaded and the start-up block has run *)
Lemma operational_has_coordinator_witness :
  AgentManager.initialized (agent_manager Demo.running) = true /\
  exists c, AgentManager.coordinator (agent_manager Demo.running) = Some c.
Proof.
  split; [reflexivity|].
  assert (Hreach : reachable (Wd := Demo.scripted) Demo.no_imports
                     Demo.running).
  { apply (@reach_main Demo.models Demo.scripted Demo.no_imports Demo.loaded
             (result_of (main Demo.loaded)) Demo.running
             (events_of (main Demo.loaded))).
    - apply (@reach_load Demo.models Demo.scripted Demo.no_imports
               Demo.no_script Demo.loaded Demo.load_events).
      reflexivity.
    - apply run_eq. reflexivity. }
  pose proof (operational_has_coordinator Hreach eq_refl) as Hc.
  destruct (AgentManager.coordinator (agent_manager Demo.running)) as [c|];
    [ exists c; reflexivity | contradiction Hc; reflexivity ].
Defined.
